(** * ReduxLocalStorage: a shallow embedding of [src/lib/ReduxLocalStorage.ts]

    The class wraps a child [Reduxable] and mirrors its state to and from
    [window.localStorage].  The embedding keeps the pieces of JavaScript the
    reducer relies on:

    - objects are ordered lists of own properties, keyed by a string or by
      the unique symbol [defaultStateSourceMarker]; what an object spread
      does not copy (a non-enumerable own property, the prototype link of
      an array or of a class instance) is kept under an internal slot;
    - state objects live in a heap, so that reference identity
      ([nextState !== s]), allocation ([{ ...s }]) and in-place mutation
      ([delete inputState[marker]]) are what they are in the source;
    - the reducer runs in a state-and-exception monad over the heap, the
      storage area and the console.

    What is not under [src/] is taken as a parameter: the child's reducer and
    default state, the transform pair, [JSON.parse], [JSON.stringify] and the
    quota decision of the storage area.  The child's reducer and the
    transform are pure functions of the state they are given, as the
    collaborator contract has them: the child's reducer returns a state for
    every state and action, [transform.read] returns a state object or
    throws, and [localStorage.getItem] answers (the storage area is
    accessible).  A state is an object; one that is not a plain object
    (an array, a class instance) carries internal slots. *)

From Stdlib Require Import ZArith Ascii.
From stdpp Require Import base strings list gmap pretty.

Local Open Scope string_scope.
Local Open Scope Z_scope.
Local Open Scope list_scope.

(** ** JavaScript values and objects *)

(** A property key: a string, or the module's unique symbol
    ([export const defaultStateSourceMarker: unique symbol]).  Both name
    enumerable own properties.  An [Internal] slot holds what belongs to an
    object and is not an enumerable own property: a non-enumerable own
    property (the [length] of an array) or the prototype link
    ([[Prototype]]) of an object that is not a plain one. *)
Inductive PropertyKey :=
| Named (name : string)
| defaultStateSourceMarker
| Internal (slot : string).

#[global] Instance PropertyKey_eq_dec : EqDecision PropertyKey.
Proof. solve_decision. Defined.

(** Property values.  Nested objects are carried by content: the wrapper
    never looks inside a property other than the marker. *)
#[warnings="-register-all"]
Inductive value :=
| VUndefined
| VNull
| VBoolean (b : bool)
| VNumber (n : Z)
| VString (s : string)
| VObject (props : list (PropertyKey * value)).

(** An object: its own properties and internal slots, in property order. *)
Abbreviation object := (list (PropertyKey * value)).

(** ToBoolean. *)
Definition truthy (v : value) : bool :=
  match v with
  | VUndefined | VNull => false
  | VBoolean b => b
  | VNumber n => negb (n =? 0)
  | VString s => negb (String.eqb s "")
  | VObject _ => true
  end.

(** [o[k]]: the value of an own property, [undefined] when there is none. *)
Fixpoint getProperty (k : PropertyKey) (o : object) : value :=
  match o with
  | [] => VUndefined
  | (k', v) :: rest => if decide (k' = k) then v else getProperty k rest
  end.

Fixpoint hasOwnProperty (k : PropertyKey) (o : object) : bool :=
  match o with
  | [] => false
  | (k', _) :: rest => if decide (k' = k) then true else hasOwnProperty k rest
  end.

(** The [[k]: v] of an object literal [{ ...o, [k]: v }], on the property
    list the spread made: an existing key keeps its place and takes the new
    value, a new key goes last. *)
Fixpoint defineProperty (k : PropertyKey) (v : value) (o : object) : object :=
  match o with
  | [] => [(k, v)]
  | (k', v') :: rest =>
      if decide (k' = k) then (k, v) :: rest
      else (k', v') :: defineProperty k v rest
  end.

(** [delete o[k]]. *)
Fixpoint deleteProperty (k : PropertyKey) (o : object) : object :=
  match o with
  | [] => []
  | (k', v') :: rest =>
      if decide (k' = k) then deleteProperty k rest
      else (k', v') :: deleteProperty k rest
  end.

(** [Array.isArray(o)], read off the prototype link. *)
Definition isArray (o : object) : bool :=
  match getProperty (Internal "[[Prototype]]") o with
  | VString p => String.eqb p "Array.prototype"
  | _ => false
  end.

(** What an object spread copies: the enumerable own properties. *)
Definition enumerable (k : PropertyKey) : bool :=
  match k with
  | Internal _ => false
  | _ => true
  end.

(** [{ ...o }]: the properties of a new plain object with the enumerable
    own properties of [o], in their order. *)
Definition spread (o : object) : object :=
  List.filter (fun p => enumerable p.1) o.

(** [Array.prototype.indexOf] on an array of strings: the first index whose
    element is strictly equal to [x], [-1] when there is none. *)
Fixpoint indexOf (xs : list string) (x : string) : Z :=
  match xs with
  | [] => -1
  | y :: rest =>
      if decide (y = x) then 0
      else let i := indexOf rest x in if i <? 0 then -1 else i + 1
  end.

(** ** The world the reducer runs in *)

(** References to state objects. *)
Abbreviation loc := nat.

(** What [throw] carries: an error's name and message. *)
Inductive Exception :=
| Error (name message : string).

Record World := mkWorld {
  heap : list object;                        (* allocated state objects *)
  storage : gmap string string;              (* window.localStorage *)
  setItemCalls : list (string * string);     (* calls of localStorage.setItem *)
  console : list (string * Exception);       (* calls of console.warn *)
}.

Inductive Completion (A : Type) :=
| Normal (a : A)
| Throw (e : Exception).
Arguments Normal {A} a.
Arguments Throw {A} e.

Definition JS (A : Type) : Type := World -> Completion A * World.

Definition ret {A} (a : A) : JS A := fun w => (Normal a, w).

Definition bind {A B} (m : JS A) (k : A -> JS B) : JS B :=
  fun w =>
    match m w with
    | (Normal a, w') => k a w'
    | (Throw e, w') => (Throw e, w')
    end.

(** [try { m } catch (e) { h e }]: what [m] did before throwing stays done. *)
Definition try_catch {A} (m : JS A) (h : Exception -> JS A) : JS A :=
  fun w =>
    match m w with
    | (Normal a, w') => (Normal a, w')
    | (Throw e, w') => h e w'
    end.

(** The outcome of a call to pure collaborator code. *)
Definition lift {A} (c : Completion A) : JS A := fun w => (c, w).

Notation "'let*' x ':=' c1 'in' c2" := (bind c1 (fun x => c2))
  (at level 10, x pattern, c1 at level 100, c2 at level 200).
Notation "'try' m 'catch' h" := (try_catch m h)
  (at level 10, m at level 9, h at level 9).

(** The object a reference points to (an unallocated reference reads as
    the empty object). *)
Definition deref (h : list object) (l : loc) : object := default [] (h !! l).

Definition load (l : loc) : JS object := fun w => (Normal (deref (heap w) l), w).

(** An object literal: a new object, at a reference not used before. *)
Definition alloc (o : object) : JS loc :=
  fun w => (Normal (length (heap w)),
            mkWorld (heap w ++ [o]) (storage w) (setItemCalls w) (console w)).

(** In-place mutation of the object at [l]. *)
Definition mutate (l : loc) (f : object -> object) : JS unit :=
  fun w => (Normal tt,
            mkWorld (alter f l (heap w)) (storage w) (setItemCalls w) (console w)).

Definition console_warn (message : string) (cause : Exception) : JS unit :=
  fun w => (Normal tt,
            mkWorld (heap w) (storage w) (setItemCalls w)
                    (console w ++ [(message, cause)])).

(** [localStorage.getItem(key)] on a storage area that can be read: the
    text at [key], or [null]. *)
Definition localStorage_getItem (key : string) : JS (option string) :=
  fun w => (Normal (storage w !! key), w).

(** [String(x)] of what [JSON.stringify] returned: [setItem] stores strings. *)
Definition ToString (x : option string) : string := default "undefined" x.

(** ** Collaborators *)

Record Action := mkAction {
  type : string;
  data : value;
}.

(** What a pure reducer hands back: the very object it was given, or a new
    object with the listed properties. *)
Inductive Transition :=
| Unchanged
| Replaced (o : object).

(** The wrapped child, as far as the wrapper uses it.  Its reducer is a
    pure function that returns a state for every state and action. *)
Record Reduxable := mkReduxable {
  Reduxable_defaultState : object;           (* the object its getter builds *)
  Reduxable_reducer : object -> Action -> Transition;
  Reduxable_actionTypeMap : list (string * string);
}.

(** The transform pair of the options: each function returns or throws,
    and what [read] returns is a state object. *)
Record ReadWriteTransformer (M : Type) := mkTransformer {
  read : M -> Completion object;
  write : object -> Completion M;
}.
Arguments read {M} _ _.
Arguments write {M} _ _.
Arguments mkTransformer {M} _ _.

Record ReduxLocalStorageOptions (M : Type) := mkOptions {
  options_transform : option (ReadWriteTransformer M);
  options_triggers : option (list string);
}.
Arguments options_transform {M} _.
Arguments options_triggers {M} _.
Arguments mkOptions {M} _ _.

(** The platform: [JSON] and the quota decision of the storage area
    ([setItem] throws when the area does not accept the write). *)
Record Platform (M : Type) := mkPlatform {
  JSON_parse : string -> Completion M;
  JSON_stringify : M -> Completion (option string);
  storage_accepts : gmap string string -> string -> string -> bool;
}.
Arguments JSON_parse {M} _ _.
Arguments JSON_stringify {M} _ _.
Arguments storage_accepts {M} _ _ _ _.
Arguments mkPlatform {M} _ _ _.

(** ** The class *)

Record ReduxLocalStorage (M : Type) := mkReduxLocalStorage {
  actionTypeMap : list (string * string);
  reduxable : Reduxable;
  target : string;
  transform : ReadWriteTransformer M;
  triggers : option (list string);
}.
Arguments actionTypeMap {M} _.
Arguments reduxable {M} _.
Arguments target {M} _.
Arguments transform {M} _.
Arguments triggers {M} _.
Arguments mkReduxLocalStorage {M} _ _ _ _ _.

Section Class.
Context {M : Type}.

(** The two unchecked casts of the default transform,
    [<R['state']><unknown>s] and [<M><unknown>s]; both are the identity
    when [M] is the child's state type, the default type argument. *)
Variable as_state : M -> object.
Variable as_stored : object -> M.

Definition constructor (reduxable : Reduxable) (target : string)
    (options : option (ReduxLocalStorageOptions M)) : ReduxLocalStorage M :=
  mkReduxLocalStorage
    (Reduxable_actionTypeMap reduxable)
    reduxable
    target
    (match options with
     | Some o =>
         match options_transform o with
         | Some t => t
         | None => mkTransformer (fun s => Normal (as_state s))
                                 (fun s => Normal (as_stored s))
         end
     | None => mkTransformer (fun s => Normal (as_state s))
                             (fun s => Normal (as_stored s))
     end)
    (match options with
     | Some o => options_triggers o
     | None => None
     end).

Variable platform : Platform M.
Variable context : ReduxLocalStorage M.

Definition localStorage_setItem (key val : string) : JS unit :=
  fun w =>
    let calls := (setItemCalls w ++ [(key, val)]) in
    if storage_accepts platform (storage w) key val
    then (Normal tt,
          mkWorld (heap w) (<[key := val]> (storage w)) calls (console w))
    else (Throw (Error "QuotaExceededError" "The quota has been exceeded."),
          mkWorld (heap w) (storage w) calls (console w)).

(** [this.reduxable.defaultState]: the child's getter. *)
Definition reduxable_defaultState : JS loc :=
  alloc (Reduxable_defaultState (reduxable context)).

(** [context.reduxable.reducer(s, a)]. *)
Definition reduxable_reducer (s : loc) (a : Action) : JS loc :=
  let* o := load s in
  match Reduxable_reducer (reduxable context) o a with
  | Unchanged => ret s
  | Replaced o' => alloc o'
  end.

(** The getter makes no use of the instance it is read on. *)
Definition actionMap : JS value :=
  let this := context in
  lift (Throw (Error "Error"
    "ReduxLocalStorage.actionMap should only be used as a TypeScript type provider (typeof .actionMap)")).

(** Passthrough default state with marker added. *)
Definition defaultState : JS loc :=
  let* d := reduxable_defaultState in
  let* o := load d in
  alloc (defineProperty defaultStateSourceMarker (VBoolean true) (spread o)).

Definition internalReducer (s : loc) (a : Action) : JS loc :=
  let* marker := (let* o := load s in ret (getProperty defaultStateSourceMarker o)) in
  if truthy marker then
    let* storedStateString := localStorage_getItem (target context) in
    let* (inputState, useDefaultState) :=
      match storedStateString with
      | Some str =>
          try
            (let* parsed := lift (JSON_parse platform str) in
             let* st := lift (read (transform context) parsed) in
             let* l := alloc st in
             ret (l, false))
          catch
            (fun e =>
               let* _ := console_warn "Could not unmarshal state from localStorage" e in
               ret (s, true))
      | None => ret (s, true)
      end in
    let* inputState :=
      if useDefaultState : bool then
        let* o := load s in
        let* c := alloc (spread o) in
        let* _ := mutate c (deleteProperty defaultStateSourceMarker) in
        ret c
      else ret inputState in
    reduxable_reducer inputState a
  else
    let* nextState := reduxable_reducer s a in
    let* _ :=
      if bool_decide (nextState ≠ s)
         && match triggers context with
            | None => true
            | Some ts => 0 <=? indexOf ts (type a)
            end
      then
        try
          (let* o := load nextState in
           let* m := lift (write (transform context) o) in
           let* str := lift (JSON_stringify platform m) in
           localStorage_setItem (target context) (ToString str))
        catch
          (fun e => console_warn "Could not marshal state to localStorage" e)
      else ret tt in
    ret nextState.

End Class.

(** ** Driving a reducer with a sequence of actions *)

(** Feeds [actions] to [reducer] one after the other, each time on the state
    the previous call returned, and records every returned state as it is
    when it is returned. *)
Fixpoint dispatch (reducer : loc -> Action -> JS loc) (s : loc)
    (actions : list Action) : JS (list object) :=
  match actions with
  | [] => ret []
  | a :: rest =>
      let* s' := reducer s a in
      let* o := load s' in
      let* states := dispatch reducer s' rest in
      ret (o :: states)
  end.

(** The wrapper, from its own default state. *)
Definition wrapper_states {M} (platform : Platform M)
    (context : ReduxLocalStorage M) (actions : list Action) : JS (list object) :=
  let* s0 := defaultState context in
  dispatch (internalReducer platform context) s0 actions.


(** ** Vocabulary of the specification *)

(** The two diagnostics of the source. *)
Definition marshal_message : string := "Could not marshal state to localStorage".
Definition unmarshal_message : string := "Could not unmarshal state from localStorage".

(** The properties of the state a pure reducer returns. *)
Definition next_properties (r : Reduxable) (o : object) (a : Action) : object :=
  match Reduxable_reducer r o a with
  | Unchanged => o
  | Replaced o' => o'
  end.


Definition marker_free (o : object) : Prop :=
  hasOwnProperty defaultStateSourceMarker o = false.

(** A plain object: all it holds is enumerable own properties, so that a
    spread copies all of it. *)
Definition plain (o : object) : Prop :=
  Forall (fun p => enumerable p.1 = true) o.

(** The shallow copy of [o] without the marker, as the specification has
    it: the enumerable own properties of [o] other than the marker, in
    their order. *)
Definition stripped_copy (o : object) : object :=
  List.filter
    (fun p => enumerable p.1 && negb (bool_decide (p.1 = defaultStateSourceMarker)))
    o.

(** The incoming state carries a truthy marker: the initialization branch. *)
Definition marked (w : World) (s : loc) : Prop :=
  truthy (getProperty defaultStateSourceMarker (deref (heap w) s)) = true.

(** A write at [key] was attempted between [w] and [w']: [setItem] was
    called on [key], or the marshal-failure diagnostic, which stands for an
    attempt that failed before the call, was emitted. *)
Definition persist_attempted (key : string) (w w' : World) : Prop :=
  (∃ text, setItemCalls w' = setItemCalls w ++ [(key, text)])
  ∨ ∃ e, console w' = console w ++ [(marshal_message, e)].

(** Nothing reached the storage area or the console between [w] and [w']:
    no [setItem] call, no change of the area, no diagnostic. *)
Definition nothing_written (w w' : World) : Prop :=
  storage w' = storage w
  ∧ setItemCalls w' = setItemCalls w
  ∧ console w' = console w.

(** The trigger condition of the options. *)
Definition triggered {M} (context : ReduxLocalStorage M) (a : Action) : Prop :=
  triggers context = None ∨ ∃ ts, triggers context = Some ts ∧ type a ∈ ts.

(** Reading a stored text back: [transform.read(JSON.parse(text))]. *)
Definition unmarshal {M} (platform : Platform M) (context : ReduxLocalStorage M)
    (text : string) : Completion object :=
  match JSON_parse platform text with
  | Normal parsed => read (transform context) parsed
  | Throw e => Throw e
  end.

(** The initialization state as the specification resolves it: the state
    read back from the stored text when there is one and it can be read,
    otherwise the incoming default state without the marker. *)
Definition initialization_state {M} (platform : Platform M)
    (context : ReduxLocalStorage M) (incoming : object)
    (stored : option string) : object :=
  match stored with
  | Some text =>
      match unmarshal platform context text with
      | Normal o => o
      | Throw _ => stripped_copy incoming
      end
  | None => stripped_copy incoming
  end.

(** [w'] is [w] after a wrapper read its default state and resolved the
    initialization state [init] from storage: the new objects are the
    child's default state, its marked copy and [init], in this order, and
    [l] is the reference of [init]; the storage area, the [setItem] calls
    and the console are those of [w]. *)
Definition resumes_at {M} (context : ReduxLocalStorage M) (w w' : World)
    (l : loc) (init : object) : Prop :=
  l = S (S (length (heap w)))
  ∧ heap w'
    = heap w
      ++ [ Reduxable_defaultState (reduxable context);
           defineProperty defaultStateSourceMarker (VBoolean true)
             (spread (Reduxable_defaultState (reduxable context)));
           init ]
  ∧ storage w' = storage w
  ∧ setItemCalls w' = setItemCalls w
  ∧ console w' = console w.

(** The diagnostics of that resolution: one when a stored text cannot be
    read back, none otherwise. *)
Definition initialization_warnings {M} (platform : Platform M)
    (context : ReduxLocalStorage M) (stored : option string)
    : list (string * Exception) :=
  match stored with
  | Some text =>
      match unmarshal platform context text with
      | Normal _ => []
      | Throw e => [(unmarshal_message, e)]
      end
  | None => []
  end.

(** Marshalling [o] for the storage area [st] fails with [e]: the transform
    throws, [JSON.stringify] throws, or the area refuses the text. *)
Definition marshal_failure {M} (platform : Platform M)
    (context : ReduxLocalStorage M) (st : gmap string string) (o : object)
    (e : Exception) : Prop :=
  write (transform context) o = Throw e
  ∨ (∃ m, write (transform context) o = Normal m
          ∧ JSON_stringify platform m = Throw e)
  ∨ (∃ m str, write (transform context) o = Normal m
          ∧ JSON_stringify platform m = Normal str
          ∧ storage_accepts platform st (target context) (ToString str) = false
          ∧ e = Error "QuotaExceededError" "The quota has been exceeded.").

(** Marshalling a state for storage:
    [String(JSON.stringify(transform.write(o)))]. *)
Definition marshal {M} (platform : Platform M) (context : ReduxLocalStorage M)
    (o : object) : Completion string :=
  match write (transform context) o with
  | Normal m =>
      match JSON_stringify platform m with
      | Normal js => Normal (ToString js)
      | Throw e => Throw e
      end
  | Throw e => Throw e
  end.

(** The write of the state [o] was attempted between [w] and [w'], and
    nothing else was done: when [o] marshals to a text, [setItem] was
    called once, on the wrapper's key and with that text, and either the
    area took it and no diagnostic was emitted, or the area refused it,
    keeps what it held, and the marshal diagnostic was emitted once with
    the quota error; when marshalling [o] throws, [setItem] was not called,
    the area keeps what it held, and the marshal diagnostic was emitted
    once with what was thrown. *)
Definition write_attempted {M} (platform : Platform M)
    (context : ReduxLocalStorage M) (o : object) (w w' : World) : Prop :=
  match marshal platform context o with
  | Normal text =>
      setItemCalls w' = setItemCalls w ++ [(target context, text)]
      ∧ (if storage_accepts platform (storage w) (target context) text
         then storage w' = <[target context := text]> (storage w)
              ∧ console w' = console w
         else storage w' = storage w
              ∧ console w'
                = console w
                  ++ [(marshal_message,
                       Error "QuotaExceededError" "The quota has been exceeded.")])
  | Throw e =>
      setItemCalls w' = setItemCalls w
      ∧ storage w' = storage w
      ∧ console w' = console w ++ [(marshal_message, e)]
  end.

(** A [setItem] call whose text is the serialization of the transform of a
    state that carries no marker. *)
Definition serialized_marker_free {M} (platform : Platform M)
    (context : ReduxLocalStorage M) (call : string * string) : Prop :=
  ∃ o m str,
    marker_free o
    ∧ write (transform context) o = Normal m
    ∧ JSON_stringify platform m = Normal str
    ∧ call = (target context, ToString str).

(** ** The test fixture of the repository and a browser to run it in *)

(** The child used by the repository's tests ([class Test]). *)
Module Test.

Definition defaultState : object :=
  [ (Named "data", VString "");
    (Named "reducer", VBoolean false);
    (Named "updated", VObject []) ].

Definition internalReducer (state : object) (action : Action) : Transition :=
  let s :=
    if truthy (getProperty (Named "reducer") state) then Unchanged
    else Replaced (defineProperty (Named "reducer") (VBoolean true)
                     (spread state)) in
  if decide (type action = "TEST") then
    Replaced (defineProperty (Named "data") (data action)
                (spread (match s with Unchanged => state | Replaced o => o end)))
  else s.

Definition new : Reduxable :=
  mkReduxable defaultState internalReducer [("testAction", "TEST")].

End Test.

(** A browser for the fixture: [JSON] on the values the fixture's states are
    made of, and a storage area that accepts every write. *)
Module Browser.

Definition dquote : string := String "034"%char "".
Definition backslash : string := String "092"%char "".

Definition hex_digit (n : N) : string :=
  String (ascii_of_N (if (n <? 10)%N then 48 + n else 87 + n)) "".

(** One character inside a JSON string: the quote, the backslash and the
    control characters are escaped. *)
Definition escape_char (c : ascii) : string :=
  let n := N_of_ascii c in
  if (n =? 34)%N then backslash +:+ dquote
  else if (n =? 92)%N then backslash +:+ backslash
  else if (n =? 8)%N then backslash +:+ "b"
  else if (n =? 9)%N then backslash +:+ "t"
  else if (n =? 10)%N then backslash +:+ "n"
  else if (n =? 12)%N then backslash +:+ "f"
  else if (n =? 13)%N then backslash +:+ "r"
  else if (n <? 32)%N
       then backslash +:+ "u00" +:+ hex_digit (n / 16) +:+ hex_digit (n mod 16)
  else String c "".

Fixpoint escape (s : string) : string :=
  match s with
  | EmptyString => EmptyString
  | String c rest => escape_char c +:+ escape rest
  end.

(** [JSON.stringify] of a string. *)
Definition quote (s : string) : string := dquote +:+ escape s +:+ dquote.

(** [JSON.stringify] on strings, booleans, integers below [10^21] in
    magnitude, [null], arrays and plain objects; [None] is [undefined].
    Symbol-keyed and [undefined]-valued properties are left out of an
    object, and an [undefined] element of an array is printed as [null]. *)
Fixpoint stringify (v : value) : option string :=
  match v with
  | VUndefined => None
  | VNull => Some "null"
  | VBoolean b => Some (if b then "true" else "false")
  | VNumber n => Some (pretty n)
  | VString s => Some (quote s)
  | VObject props =>
      let fix members (ps : list (PropertyKey * value)) : list string :=
        match ps with
        | [] => []
        | (Named k, v') :: rest =>
            match stringify v' with
            | Some t => (quote k +:+ ":" +:+ t) :: members rest
            | None => members rest
            end
        | (defaultStateSourceMarker, _) :: rest => members rest
        | (Internal _, _) :: rest => members rest
        end in
      let fix elements (ps : list (PropertyKey * value)) : list string :=
        match ps with
        | [] => []
        | (Named _, v') :: rest => default "null" (stringify v') :: elements rest
        | _ :: rest => elements rest
        end in
      Some (if isArray props
            then "[" +:+ String.concat "," (elements props) +:+ "]"
            else "{" +:+ String.concat "," (members props) +:+ "}")
  end.

(** The documents the storage area holds in the examples. *)
Definition documents : list object :=
  [ [ (Named "data", VString "i was already here");
      (Named "reducer", VBoolean true);
      (Named "updated", VObject []) ];
    [ (Named "data", VString "am i writing");
      (Named "reducer", VBoolean true);
      (Named "updated", VObject []) ];
    [ (Named "reducer", VBoolean true);
      (Named "updated", VObject []) ];
    [ (Named "data", VObject []);
      (Named "reducer", VBoolean true);
      (Named "updated", VObject []) ] ].

(** [JSON.parse] on the texts of [documents], as [JSON.stringify] prints
    them; the examples store no other well-formed text, and any other
    text is treated as malformed. *)
Definition parse (text : string) : Completion object :=
  match List.find (fun o => String.eqb (ToString (stringify (VObject o))) text) documents with
  | Some o => Normal o
  | None => Throw (Error "SyntaxError" "Unexpected end of JSON input")
  end.

Definition platform : Platform object :=
  mkPlatform parse (fun o => Normal (stringify (VObject o))) (fun _ _ _ => true).

(** The same browser with a storage area that is full. *)
Definition full : Platform object :=
  mkPlatform parse (fun o => Normal (stringify (VObject o))) (fun _ _ _ => false).

(** The same browser meeting a value [JSON.stringify] cannot serialize
    (the self-referential [data] of the tests). *)
Definition circular : Platform object :=
  mkPlatform parse
    (fun _ => Throw (Error "TypeError" "Converting circular structure to JSON"))
    (fun _ _ _ => true).

Definition empty : World := mkWorld [] ∅ [] [].

End Browser.

(** The wrappers of the test suite. *)
Definition rlswt : ReduxLocalStorage object :=
  constructor id id Test.new "rlswt" (Some (mkOptions None (Some ["TEST"]))).
Definition rlsst : ReduxLocalStorage object :=
  constructor id id Test.new "rlsst" None.
Definition rlsnt : ReduxLocalStorage object :=
  constructor id id Test.new "rlsnt" (Some (mkOptions None (Some []))).

(** Inputs of the examples: a state object as the tests hand it to the
    reducer, the actions they dispatch, and a truncated text in storage. *)
Definition loaded : World :=
  mkWorld
    [ [ (Named "data", VString "");
        (Named "reducer", VBoolean true);
        (Named "updated", VObject []) ] ]
    ∅ [] [].

Definition TEST : Action := mkAction "TEST" (VString "am i writing").
Definition INIT : Action := mkAction "@@" VUndefined.

Definition broken : ReduxLocalStorage object :=
  constructor id id Test.new "broken" None.

Definition broken_text : string :=
  "{" +:+ Browser.dquote +:+ "broken" +:+ Browser.dquote +:+ ":"
      +:+ Browser.dquote +:+ "JSON" +:+ Browser.dquote.

(** The marked default state of [broken], with the truncated text stored. *)
Definition corrupt : World :=
  mkWorld
    [ defineProperty defaultStateSourceMarker (VBoolean true) Test.defaultState ]
    {[ "broken" := broken_text ]} [] [].

(** The marked default state of [rlswt], nothing stored. *)
Definition pristine : World :=
  mkWorld
    [ defineProperty defaultStateSourceMarker (VBoolean true) Test.defaultState ]
    ∅ [] [].

(** The marked default state of [rlsst], with a document stored at its key. *)
Definition revisited : World :=
  mkWorld
    [ defineProperty defaultStateSourceMarker (VBoolean true) Test.defaultState ]
    {[ "rlsst" := ToString (Browser.stringify (VObject
         [ (Named "data", VString "i was already here");
           (Named "reducer", VBoolean true);
           (Named "updated", VObject []) ])) ]} [] [].

(** The browser for a wrapper whose stored form is a string
    ([ReduxLocalStorage<Test, string>]): [JSON] on strings without escapes. *)
Module StringBrowser.

(** The characters of a string literal up to its closing quote, which
    ends the text; a literal with an escape or a control character is not
    one of the examples'. *)
Fixpoint strip_closing (s : string) : option string :=
  match s with
  | EmptyString => None
  | String c rest =>
      if Ascii.eqb c "034" then
        match rest with
        | EmptyString => Some EmptyString
        | _ => None
        end
      else if Ascii.eqb c "092" || (N_of_ascii c <? 32)%N then None
      else String c <$> strip_closing rest
  end.

Definition parse (text : string) : Completion string :=
  match text with
  | String c rest =>
      if Ascii.eqb c "034" then
        match strip_closing rest with
        | Some s => Normal s
        | None => Throw (Error "SyntaxError" "Unexpected end of JSON input")
        end
      else Throw (Error "SyntaxError" "Unexpected token")
  | EmptyString => Throw (Error "SyntaxError" "Unexpected end of JSON input")
  end.

Definition platform : Platform string :=
  mkPlatform parse
    (fun s => Normal (Some (Browser.quote s)))
    (fun _ _ _ => true).

(** What a template literal makes of a value ([`${v}`]), for primitives,
    arrays and plain objects: an array is joined with commas, its [null]
    and [undefined] elements giving the empty string. *)
Fixpoint template (v : value) : string :=
  match v with
  | VUndefined => "undefined"
  | VNull => "null"
  | VBoolean b => if b then "true" else "false"
  | VNumber n => pretty n
  | VString s => s
  | VObject props =>
      let fix elements (ps : list (PropertyKey * value)) : list string :=
        match ps with
        | [] => []
        | (Named _, VUndefined) :: rest | (Named _, VNull) :: rest =>
            "" :: elements rest
        | (Named _, v') :: rest => template v' :: elements rest
        | _ :: rest => elements rest
        end in
      if isArray props then String.concat "," (elements props)
      else "[object Object]"
  end.

(** The transform of the tests: [read] wraps the stored string in a state,
    [write] keeps the state's [data]. *)
Definition transformer : ReadWriteTransformer string :=
  mkTransformer
    (fun s => Normal [ (Named "data", VString ("Transformed read: " +:+ s));
                       (Named "reducer", VBoolean true);
                       (Named "updated", VObject []) ])
    (fun o => Normal ("Transformed write: "
                      +:+ template (getProperty (Named "data") o))).

End StringBrowser.

Definition writeTransformer : ReduxLocalStorage string :=
  constructor (fun _ => []) (fun _ => "") Test.new "writeTransformer"
    (Some (mkOptions (Some StringBrowser.transformer) None)).

Definition readTransformer : ReduxLocalStorage string :=
  constructor (fun _ => []) (fun _ => "") Test.new "readTransformer"
    (Some (mkOptions (Some StringBrowser.transformer) None)).

(** A child whose state is an array ([defaultState = ['a']]) and whose
    reducer hands its state back, and a wrapper around it. *)
Definition array_of_a : object :=
  [ (Named "0", VString "a");
    (Internal "length", VNumber 1);
    (Internal "[[Prototype]]", VString "Array.prototype") ].

Definition ArrayChild : Reduxable :=
  mkReduxable array_of_a (fun _ _ => Unchanged) [].

Definition list_wrapper : ReduxLocalStorage object :=
  constructor id id ArrayChild "list" None.

(** A transform whose [read] marks what it reads as a default state
    ([read: s => ({ ...s, [defaultStateSourceMarker]: true })]), and a
    wrapper of the fixture with it, at the key of [rlsst]. *)
Definition remarking : ReadWriteTransformer object :=
  mkTransformer
    (fun o => Normal (defineProperty defaultStateSourceMarker (VBoolean true)
                        (spread o)))
    (fun o => Normal o).

Definition remarked : ReduxLocalStorage object :=
  constructor id id Test.new "rlsst" (Some (mkOptions (Some remarking) None)).



(** A child whose reducer sets the marker key on the state it returns
    ([state => ({ ...state, [defaultStateSourceMarker]: true })]). *)
Definition MarkingChild : Reduxable :=
  mkReduxable
    [ (Named "data", VString "") ]
    (fun o _ =>
       Replaced (defineProperty defaultStateSourceMarker (VBoolean true)
                   (spread o)))
    [].

Definition marking_wrapper : ReduxLocalStorage object :=
  constructor id id MarkingChild "marking" None.

(** A [TEST] action without data ([run(undefined)]), and one whose data
    is an empty [Map] ([run(new Map())]). *)
Definition CLEAR : Action := mkAction "TEST" VUndefined.

Definition MAPPED : Action :=
  mkAction "TEST" (VObject [ (Internal "[[Prototype]]", VString "Map.prototype") ]).

(** ** Further vocabulary *)

(** [Test.run]: the action the fixture builds from its input. *)
Definition Test_run (data : value) : Action := mkAction "TEST" data.

(** ** The console reporter of the test suite ([wrapConsole]) *)

Module Reporter.

Inductive ConsoleType :=
| error | group | groupCollapsed | groupEnd | log | warn.

(** A method of the console object: the platform's own, which prints, or
    the closure [reporter(k)] over a report array. *)
Inductive Method :=
| native (k : ConsoleType)
| reporter (report : nat) (k : ConsoleType).

(** The six methods the reporter replaces. *)
Record Console := mkConsole {
  console_error : Method;
  console_group : Method;
  console_groupCollapsed : Method;
  console_groupEnd : Method;
  console_log : Method;
  console_warn : Method;
}.

Definition method (c : Console) (k : ConsoleType) : Method :=
  match k with
  | error => console_error c
  | group => console_group c
  | groupCollapsed => console_groupCollapsed c
  | groupEnd => console_groupEnd c
  | log => console_log c
  | warn => console_warn c
  end.

(** [[k, ...m]]: the kind and the arguments of one call. *)
Abbreviation ConsoleMessage A := (ConsoleType * list A)%type.

Record Harness (A : Type) := mkHarness {
  methods : Console;                        (* the global console object *)
  arrays : list (list (ConsoleMessage A));  (* the report arrays allocated *)
  terminal : list (ConsoleMessage A);       (* what the platform printed *)
}.
Arguments mkHarness {A} _ _ _.
Arguments methods {A} _.
Arguments arrays {A} _.
Arguments terminal {A} _.

(** The function [wrapConsole] returns: it closes over the six methods it
    found and over its report array. *)
Record Restore := mkRestore {
  saved : Console;
  report : nat;
}.

Definition wrapConsole {A} (h : Harness A) : Restore * Harness A :=
  let report := length (arrays h) in
  let saved :=
    mkConsole (console_error (methods h)) (console_group (methods h))
      (console_groupCollapsed (methods h)) (console_groupEnd (methods h))
      (console_log (methods h)) (console_warn (methods h)) in
  (mkRestore saved report,
   mkHarness
     (mkConsole (reporter report error) (reporter report group)
        (reporter report groupCollapsed) (reporter report groupEnd)
        (reporter report log) (reporter report warn))
     (arrays h ++ [[]])
     (terminal h)).

Definition restore {A} (r : Restore) (h : Harness A)
    : list (ConsoleMessage A) * Harness A :=
  (default [] (arrays h !! report r),
   mkHarness
     (mkConsole (console_error (saved r)) (console_group (saved r))
        (console_groupCollapsed (saved r)) (console_groupEnd (saved r))
        (console_log (saved r)) (console_warn (saved r)))
     (arrays h)
     (terminal h)).

(** Calling a method: the platform's prints, a reporter pushes
    [[k, ...m]] on its report array. *)
Definition invoke {A} (m : Method) (args : list A) (h : Harness A) : Harness A :=
  match m with
  | native k => mkHarness (methods h) (arrays h) (terminal h ++ [(k, args)])
  | reporter r k =>
      mkHarness (methods h) (alter (fun rep => rep ++ [(k, args)]) r (arrays h))
        (terminal h)
  end.

(** [console[k](...args)] on the console object as it is now. *)
Definition call {A} (h : Harness A) (msg : ConsoleMessage A) : Harness A :=
  invoke (method (methods h) msg.1) msg.2 h.

Definition calls {A} (msgs : list (ConsoleMessage A)) (h : Harness A) : Harness A :=
  foldl call h msgs.

End Reporter.

(** Unfolds the monad and the effects down to worlds. *)
Ltac run :=
  unfold internalReducer, reduxable_reducer, defaultState,
    reduxable_defaultState, localStorage_getItem, localStorage_setItem,
    console_warn, mutate, alloc, load, lift, try_catch, bind, ret in *;
  cbn [heap storage setItemCalls console fst snd] in *.

(** Reduces the projections of the reporter's records. *)
Ltac reporter_simpl :=
  cbn [fst snd app Reporter.methods Reporter.arrays Reporter.terminal
       Reporter.saved Reporter.report
       Reporter.console_error Reporter.console_group
       Reporter.console_groupCollapsed Reporter.console_groupEnd
       Reporter.console_log Reporter.console_warn].

(** * Properties *)

(** ** Property lists *)

Lemma getProperty_defineProperty k v o :
  getProperty k (defineProperty k v o) = v.
Proof.
  induction o as [|[k' v'] rest IH]; simpl.
  - by rewrite decide_True.
  - destruct (decide (k' = k)) as [->|Hne]; simpl.
    + by rewrite decide_True.
    + by rewrite decide_False.
Qed.

Lemma hasOwnProperty_deleteProperty k o :
  hasOwnProperty k (deleteProperty k o) = false.
Proof.
  induction o as [|[k' v'] rest IH]; simpl; [done|].
  destruct (decide (k' = k)) as [->|Hne]; simpl; [done|].
  by rewrite decide_False.
Qed.

Lemma getProperty_absent k o :
  hasOwnProperty k o = false -> getProperty k o = VUndefined.
Proof.
  induction o as [|[k' v'] rest IH]; simpl; [done|].
  destruct (decide (k' = k)); [done | exact IH].
Qed.


(** Defining one key leaves the others as they are. *)
Lemma hasOwnProperty_defineProperty_ne k k' v o :
  k ≠ k' ->
  hasOwnProperty k (defineProperty k' v o) = hasOwnProperty k o.
Proof.
  intros Hne. induction o as [|[k0 v0] rest IH]; simpl.
  - by rewrite decide_False.
  - destruct (decide (k0 = k')) as [->|Hne']; simpl.
    + by rewrite !decide_False.
    + destruct (decide (k0 = k)); done.
Qed.

Lemma getProperty_defineProperty_ne k k' v o :
  k ≠ k' -> getProperty k (defineProperty k' v o) = getProperty k o.
Proof.
  intros Hne. induction o as [|[k0 v0] rest IH]; simpl.
  - by rewrite decide_False.
  - destruct (decide (k0 = k')) as [->|Hne']; simpl.
    + by rewrite !decide_False.
    + destruct (decide (k0 = k)); done.
Qed.

(** ** Spread and the stripped copy *)

Lemma spread_plain o : plain o -> spread o = o.
Proof.
  unfold plain, spread. induction 1 as [|[k v] rest Hk _ IH]; [done|].
  cbn [List.filter fst] in *. by rewrite Hk, IH.
Qed.

Lemma plain_spread o : plain (spread o).
Proof.
  unfold plain, spread. induction o as [|[k v] rest IH]; [done|].
  cbn [List.filter fst]. destruct (enumerable k) eqn:E; [|done].
  by apply Forall_cons.
Qed.

Lemma spread_defineProperty k v o :
  enumerable k = true ->
  spread (defineProperty k v o) = defineProperty k v (spread o).
Proof.
  intros Hk. unfold spread. induction o as [|[k' v'] rest IH].
  - cbn [defineProperty List.filter fst]. by rewrite Hk.
  - cbn [defineProperty List.filter fst].
    destruct (decide (k' = k)) as [->|Hne].
    + cbn [List.filter fst]. rewrite Hk. cbn [defineProperty].
      by rewrite decide_True.
    + cbn [List.filter fst]. destruct (enumerable k') eqn:E; [|done].
      cbn [defineProperty]. rewrite decide_False by done. by rewrite IH.
Qed.

Lemma plain_defineProperty k v o :
  enumerable k = true -> plain (spread o) -> plain (defineProperty k v (spread o)).
Proof.
  intros Hk _. rewrite <- spread_defineProperty by done. apply plain_spread.
Qed.

Lemma getProperty_spread k o :
  enumerable k = true -> getProperty k (spread o) = getProperty k o.
Proof.
  intros Hk. unfold spread. induction o as [|[k' v'] rest IH]; [done|].
  cbn [List.filter getProperty fst].
  destruct (enumerable k') eqn:E; cbn [getProperty].
  - by rewrite IH.
  - rewrite decide_False by (intros ->; congruence). done.
Qed.

Lemma hasOwnProperty_spread k o :
  hasOwnProperty k (spread o) = enumerable k && hasOwnProperty k o.
Proof.
  unfold spread. induction o as [|[k' v'] rest IH].
  - by rewrite andb_false_r.
  - cbn [List.filter hasOwnProperty fst].
    destruct (enumerable k') eqn:E; cbn [hasOwnProperty].
    + destruct (decide (k' = k)) as [->|Hne]; [by rewrite E | done].
    + destruct (decide (k' = k)) as [->|Hne]; [by rewrite IH, E | done].
Qed.

(** The copy the reducer makes and strips ([{ ...s }], then [delete]) is
    the stripped copy. *)
Lemma deleteProperty_spread o :
  deleteProperty defaultStateSourceMarker (spread o) = stripped_copy o.
Proof.
  unfold spread, stripped_copy. induction o as [|[k v] rest IH]; [done|].
  cbn [List.filter fst]. destruct (enumerable k) eqn:E; cbn [andb]; [|done].
  cbn [deleteProperty].
  destruct (decide (k = defaultStateSourceMarker)) as [->|Hne].
  - by rewrite bool_decide_eq_true_2.
  - rewrite bool_decide_eq_false_2 by done. cbn [negb]. by rewrite IH.
Qed.

Lemma marker_free_stripped_copy o : marker_free (stripped_copy o).
Proof.
  rewrite <- deleteProperty_spread. apply hasOwnProperty_deleteProperty.
Qed.

(** The stripped copy reads as the object on every enumerable key other
    than the marker, and holds nothing else. *)
Lemma getProperty_stripped_copy k o :
  enumerable k = true -> k ≠ defaultStateSourceMarker ->
  getProperty k (stripped_copy o) = getProperty k o.
Proof.
  intros Hk Hne. unfold stripped_copy.
  induction o as [|[k' v'] rest IH]; [done|].
  cbn [List.filter getProperty fst].
  destruct (enumerable k' && negb (bool_decide (k' = defaultStateSourceMarker)))
    eqn:E; cbn [getProperty].
  - by rewrite IH.
  - rewrite decide_False; [done|]. intros ->.
    rewrite Hk, bool_decide_eq_false_2 in E by done. done.
Qed.

Lemma hasOwnProperty_stripped_copy k o :
  hasOwnProperty k (stripped_copy o)
  = enumerable k && negb (bool_decide (k = defaultStateSourceMarker))
    && hasOwnProperty k o.
Proof.
  unfold stripped_copy. induction o as [|[k' v'] rest IH].
  - by rewrite andb_false_r.
  - cbn [List.filter hasOwnProperty fst].
    destruct (enumerable k' && negb (bool_decide (k' = defaultStateSourceMarker)))
      eqn:E; cbn [hasOwnProperty].
    + destruct (decide (k' = k)) as [->|Hne]; [by rewrite E | done].
    + destruct (decide (k' = k)) as [->|Hne]; [by rewrite IH, E | done].
Qed.


Lemma marker_free_not_marked o :
  marker_free o -> truthy (getProperty defaultStateSourceMarker o) = false.
Proof. intros H. by rewrite (getProperty_absent _ _ H). Qed.

(** [triggers.indexOf(a.type) >= 0] is membership. *)
Lemma indexOf_nonneg xs x : 0 <= indexOf xs x <-> x ∈ xs.
Proof.
  induction xs as [|y rest IH]; simpl.
  - split; [lia | by intros ?%elem_of_nil].
  - destruct (decide (y = x)) as [->|Hne].
    + split; [intros _; apply list_elem_of_here | lia].
    + rewrite elem_of_cons.
      destruct (indexOf rest x <? 0) eqn:E.
      * apply Z.ltb_lt in E. split; [lia|].
        intros [->|Hin]; [done|]. apply IH in Hin. lia.
      * apply Z.ltb_ge in E. split; [intros _; right; by apply IH | lia].
Qed.

(** The test on [context.triggers] in the source is the trigger condition. *)
Lemma trigger_check {M} (context : ReduxLocalStorage M) (a : Action) :
  match triggers context with
  | None => true
  | Some ts => 0 <=? indexOf ts (type a)
  end = true <-> triggered context a.
Proof.
  unfold triggered. destruct (triggers context) as [ts|].
  - rewrite Z.leb_le, indexOf_nonneg. split.
    + intros H. right. by exists ts.
    + intros [?|(ts' & ? & ?)]; by simplify_eq.
  - split; [by left | done].
Qed.

(** ** The heap *)

Lemma deref_alloc h o : deref (h ++ [o]) (length h) = o.
Proof.
  unfold deref. rewrite lookup_app_r by lia.
  by rewrite Nat.sub_diag.
Qed.

Lemma deref_alloc_second (h : list object) (o1 o2 : object) :
  deref (h ++ [o1; o2]) (S (length h)) = o2.
Proof.
  unfold deref. rewrite lookup_app_r by lia.
  by replace (S (length h) - length h)%nat with 1%nat by lia.
Qed.

Lemma lookup_app_old (h ext : list object) (l : loc) (o : object) :
  h !! l = Some o -> (h ++ ext) !! l = Some o.
Proof. intros H. by apply lookup_app_l_Some. Qed.

Lemma alter_alloc (f : object -> object) h o :
  alter f (length h) (h ++ [o]) = h ++ [f o].
Proof.
  induction h as [|x h IH]; simpl; [done|].
  by rewrite <- IH.
Qed.

Lemma app_singleton_neq {A} (l : list A) (x : A) : l ++ [x] ≠ l.
Proof.
  intros H. apply (f_equal length) in H.
  rewrite length_app in H. simpl in H. lia.
Qed.

(** ** The two branches of the reducer, evaluated *)

(** The child's reducer only allocates: it returns the reference it was
    given or a new one, and leaves storage and console alone. *)
Lemma reduxable_reducer_run {M} (context : ReduxLocalStorage M) s a w :
  ∃ next ext,
    reduxable_reducer context s a w
      = (Normal next,
         mkWorld (heap w ++ ext) (storage w) (setItemCalls w) (console w))
    ∧ deref (heap w ++ ext) next
      = next_properties (reduxable context) (deref (heap w) s) a.
Proof.
  destruct w as [h st calls con]. run. unfold next_properties.
  destruct (Reduxable_reducer _ _ _) as [|o'].
  - exists s, []. by rewrite app_nil_r.
  - exists (length h), [o']. by rewrite deref_alloc.
Qed.

Lemma defaultState_run {M} (context : ReduxLocalStorage M) (w : World) :
  defaultState context w
  = (Normal (S (length (heap w))),
     mkWorld
       (heap w ++ [Reduxable_defaultState (reduxable context);
                   defineProperty defaultStateSourceMarker (VBoolean true)
                     (spread (Reduxable_defaultState (reduxable context)))])
       (storage w) (setItemCalls w) (console w)).
Proof.
  run. rewrite deref_alloc, length_app, <- app_assoc. cbn [length app].
  by rewrite Nat.add_1_r.
Qed.

(** A marked state is an allocated object. *)
Lemma marked_allocated (w : World) (s : loc) :
  marked w s -> (s < length (heap w))%nat.
Proof.
  unfold marked, deref. intros Hm.
  destruct (heap w !! s) as [o|] eqn:E; [by eapply lookup_lt_Some|done].
Qed.

(** The normal branch: the child's reducer runs on [s]; then, when the
    test of the source holds, the try block runs in the world the child
    left, and either stores the text or warns. *)
Lemma internalReducer_normal {M} (platform : Platform M)
    (context : ReduxLocalStorage M) (s : loc) (a : Action) (w : World) :
  ¬ marked w s ->
  ∃ next ext,
    reduxable_reducer context s a w
      = (Normal next,
         mkWorld (heap w ++ ext) (storage w) (setItemCalls w) (console w))
    ∧ deref (heap w ++ ext) next
      = next_properties (reduxable context) (deref (heap w) s) a
    ∧ internalReducer platform context s a w
      = (Normal next,
         if bool_decide (next ≠ s)
            && match triggers context with
               | None => true
               | Some ts => 0 <=? indexOf ts (type a)
               end
         then
           match write (transform context) (deref (heap w ++ ext) next) with
           | Normal m =>
               match JSON_stringify platform m with
               | Normal str =>
                   if storage_accepts platform (storage w) (target context) (ToString str)
                   then mkWorld (heap w ++ ext)
                          (<[target context := ToString str]> (storage w))
                          (setItemCalls w ++ [(target context, ToString str)])
                          (console w)
                   else mkWorld (heap w ++ ext) (storage w)
                          (setItemCalls w ++ [(target context, ToString str)])
                          (console w ++ [(marshal_message,
                             Error "QuotaExceededError" "The quota has been exceeded.")])
               | Throw e =>
                   mkWorld (heap w ++ ext) (storage w) (setItemCalls w)
                     (console w ++ [(marshal_message, e)])
               end
           | Throw e =>
               mkWorld (heap w ++ ext) (storage w) (setItemCalls w)
                 (console w ++ [(marshal_message, e)])
           end
         else mkWorld (heap w ++ ext) (storage w) (setItemCalls w) (console w)).
Proof.
  unfold marked. intros Hm%not_true_is_false.
  destruct (reduxable_reducer_run context s a w) as (next & ext & Hrun & Hnext).
  exists next, ext. split; [done|]. split; [done|].
  unfold internalReducer. unfold bind at 1. unfold bind at 1.
  unfold load at 1, ret at 1. cbn [heap]. rewrite Hm.
  unfold bind at 1. rewrite Hrun.
  destruct (bool_decide (next ≠ s) && _); [|done].
  run. by repeat (case_match; simplify_eq).
Qed.


(** The initialization branch: the initialization state is a new object,
    and the child's reducer runs on it. *)
Lemma internalReducer_init {M} (platform : Platform M)
    (context : ReduxLocalStorage M) (s : loc) (a : Action) (w : World) :
  marked w s ->
  internalReducer platform context s a w
  = reduxable_reducer context (length (heap w)) a
      (mkWorld
         (heap w ++ [initialization_state platform context (deref (heap w) s)
                       (storage w !! target context)])
         (storage w) (setItemCalls w)
         (console w ++ initialization_warnings platform context
                         (storage w !! target context))).
Proof.
  unfold marked. intros Hm.
  unfold initialization_state, initialization_warnings, unmarshal.
  unfold internalReducer, localStorage_getItem, console_warn, mutate, alloc,
    load, lift, try_catch, bind, ret.
  cbn [heap storage setItemCalls console]. rewrite Hm.
  destruct (storage w !! target context) as [text|].
  - destruct (JSON_parse platform text) as [parsed|e].
    + destruct (read (transform context) parsed) as [st|e];
        cbn [heap storage setItemCalls console].
      * by rewrite app_nil_r.
      * by rewrite alter_alloc, deleteProperty_spread.
    + cbn [heap storage setItemCalls console].
      by rewrite alter_alloc, deleteProperty_spread.
  - cbn [heap storage setItemCalls console].
    by rewrite alter_alloc, deleteProperty_spread, app_nil_r.
Qed.

(** The test of the source before the try block holds or does not. *)
Lemma write_condition_dec {M} (context : ReduxLocalStorage M)
    (next s : loc) (a : Action) :
  (next ≠ s ∧ triggered context a) ∨ ¬ (next ≠ s ∧ triggered context a).
Proof.
  pose proof (trigger_check context a) as Ht.
  destruct (decide (next = s)) as [->|Hne]; [right; by intros [? _]|].
  destruct (match triggers context with
            | None => true
            | Some ts => 0 <=? indexOf ts (type a)
            end).
  - left. split; [done | by apply Ht].
  - right. intros [_ H]. by apply Ht in H.
Qed.

(** An attempted write left a trace: a [setItem] call or a diagnostic. *)
Lemma write_attempted_not_nothing {M} (platform : Platform M)
    (context : ReduxLocalStorage M) (o : object) (w w' : World) :
  write_attempted platform context o w w' -> ¬ nothing_written w w'.
Proof.
  unfold write_attempted, nothing_written.
  destruct (marshal platform context o) as [text|e].
  - intros (Hcalls & _) (_ & Hsame & _). rewrite Hsame in Hcalls.
    symmetry in Hcalls. by apply app_singleton_neq in Hcalls.
  - intros (_ & _ & Hcon) (_ & _ & Hsame). rewrite Hsame in Hcon.
    symmetry in Hcon. by apply app_singleton_neq in Hcon.
Qed.

(** The normal branch by its outcome: the child's result is returned, and
    the write is attempted when the test of the source holds; nothing is
    written otherwise. *)
Lemma internalReducer_normal_outcome {M} (platform : Platform M)
    (context : ReduxLocalStorage M) (s : loc) (a : Action) (w : World) :
  ¬ marked w s ->
  ∃ next w1 w',
    reduxable_reducer context s a w = (Normal next, w1)
    ∧ internalReducer platform context s a w = (Normal next, w')
    ∧ heap w' = heap w1
    ∧ deref (heap w1) next
      = next_properties (reduxable context) (deref (heap w) s) a
    ∧ (next ≠ s ∧ triggered context a ->
       write_attempted platform context (deref (heap w1) next) w w')
    ∧ (¬ (next ≠ s ∧ triggered context a) -> nothing_written w w').
Proof.
  intros Hm.
  destruct (internalReducer_normal platform context s a w Hm)
    as (next & ext & Hrun & Hnext & ->).
  assert (bool_decide (next ≠ s)
          && match triggers context with
             | None => true
             | Some ts => 0 <=? indexOf ts (type a)
             end = true <-> next ≠ s ∧ triggered context a) as Hc.
  { by rewrite andb_true_iff, bool_decide_eq_true, trigger_check. }
  exists next. eexists. eexists. split; [exact Hrun|]. split; [reflexivity|].
  cbn [heap]. unfold write_attempted, nothing_written, marshal.
  destruct (bool_decide (next ≠ s) && _).
  - destruct (write (transform context) _) as [m|e];
      [destruct (JSON_stringify platform m) as [js|e];
         [destruct (storage_accepts _ _ _ _) eqn:Hacc|]|];
      cbn [heap storage setItemCalls console]; rewrite ?Hacc;
      (split; [done|]); (split; [done|]);
      (split; [done | intros Hno; exfalso; apply Hno; by apply Hc]).
  - cbn [heap storage setItemCalls console].
    split; [done|]. split; [done|].
    split; [intros Hyes; apply Hc in Hyes; done | done].
Qed.

(** ** Sequences of actions *)




Lemma initialization_state_marker_free {M} (platform : Platform M)
    (context : ReduxLocalStorage M) (incoming : object) (stored : option string) :
  (∀ text o, unmarshal platform context text = Normal o -> marker_free o) ->
  marker_free (initialization_state platform context incoming stored).
Proof.
  intros Hread. unfold initialization_state.
  destruct stored as [text|]; [|apply marker_free_stripped_copy].
  destruct (unmarshal platform context text) as [o|e] eqn:E;
    [by eapply Hread | apply marker_free_stripped_copy].
Qed.

(** One call of the reducer, on the marked default state or on a state
    without marker: the returned state has no marker, and what is handed to
    [setItem] comes from a state without marker. *)
Lemma internalReducer_hygiene {M} (platform : Platform M)
    (context : ReduxLocalStorage M) (s : loc) (a : Action) (w : World) :
  (∀ o a, marker_free o -> marker_free (next_properties (reduxable context) o a)) ->
  (∀ text o, unmarshal platform context text = Normal o -> marker_free o) ->
  marked w s ∨ marker_free (deref (heap w) s) ->
  ∃ next w' new,
    internalReducer platform context s a w = (Normal next, w')
    ∧ marker_free (deref (heap w') next)
    ∧ setItemCalls w' = setItemCalls w ++ new
    ∧ Forall (serialized_marker_free platform context) new.
Proof.
  intros Hchild Hread [Hm|Hfree].
  - rewrite (internalReducer_init platform context s a w Hm).
    set (init := initialization_state _ _ _ _).
    set (w1 := mkWorld _ _ _ _).
    destruct (reduxable_reducer_run context (length (heap w)) a w1)
      as (next & ext & Hrun & Hnext).
    exists next. eexists. exists []. split; [exact Hrun|].
    cbn [heap setItemCalls]. rewrite Hnext. subst w1. cbn [heap].
    rewrite deref_alloc, app_nil_r.
    split; [|done].
    apply Hchild. by apply initialization_state_marker_free.
  - destruct (internalReducer_normal platform context s a w)
      as (next & ext & _ & Hnext & ->).
    { unfold marked. by rewrite (marker_free_not_marked _ Hfree). }
    assert (marker_free (deref (heap w ++ ext) next)) as Hnf.
    { rewrite Hnext. by apply Hchild. }
    destruct (bool_decide (next ≠ s) && _).
    + destruct (write (transform context) _) as [m|e] eqn:Hw.
      * destruct (JSON_stringify platform m) as [str|e] eqn:Hj.
        -- assert (Forall (serialized_marker_free platform context)
                     [(target context, ToString str)]) as Hser.
           { apply Forall_singleton. by eexists _, m, str. }
           exists next. eexists. exists [(target context, ToString str)].
           split; [reflexivity|].
           by destruct (storage_accepts _ _ _ _).
        -- exists next. eexists. exists []. by rewrite app_nil_r.
      * exists next. eexists. exists []. by rewrite app_nil_r.
    + exists next. eexists. exists []. by rewrite app_nil_r.
Qed.

Lemma dispatch_hygiene {M} (platform : Platform M)
    (context : ReduxLocalStorage M) (actions : list Action) :
  (∀ o a, marker_free o -> marker_free (next_properties (reduxable context) o a)) ->
  (∀ text o, unmarshal platform context text = Normal o -> marker_free o) ->
  ∀ (s : loc) (w : World),
    marked w s ∨ marker_free (deref (heap w) s) ->
    ∃ states w' new,
      dispatch (internalReducer platform context) s actions w = (Normal states, w')
      ∧ Forall marker_free states
      ∧ setItemCalls w' = setItemCalls w ++ new
      ∧ Forall (serialized_marker_free platform context) new.
Proof.
  intros Hchild Hread.
  induction actions as [|a rest IH]; intros s w Hs.
  - exists [], w, []. by rewrite app_nil_r.
  - destruct (internalReducer_hygiene platform context s a w Hchild Hread Hs)
      as (next & w1 & new1 & Hstep & Hnf & Hcalls1 & Hser1).
    destruct (IH next w1 (or_intror Hnf))
      as (states & w2 & new2 & Hrest & Hall & Hcalls2 & Hser2).
    exists (deref (heap w1) next :: states), w2, (new1 ++ new2).
    cbn [dispatch]. unfold bind at 1. rewrite Hstep.
    unfold bind at 1, load at 1. unfold bind at 1. rewrite Hrest.
    split; [done|]. split; [by apply Forall_cons|].
    split; [by rewrite Hcalls2, Hcalls1, app_assoc | by apply Forall_app].
Qed.

(** ** Writing and reading back *)

(** A call of the reducer that called [setItem] and did not warn stored the
    serialization of the transform of the state it returned. *)
Lemma internalReducer_persisted {M} (platform : Platform M)
    (context : ReduxLocalStorage M) (s : loc) (a : Action) (w w1 : World)
    (nextState : loc) :
  internalReducer platform context s a w = (Normal nextState, w1) ->
  setItemCalls w1 ≠ setItemCalls w ->
  console w1 = console w ->
  ∃ m js,
    write (transform context) (deref (heap w1) nextState) = Normal m
    ∧ JSON_stringify platform m = Normal js
    ∧ storage w1 !! target context = Some (ToString js).
Proof.
  intros Hrun Hcalls Hcon.
  destruct (truthy (getProperty defaultStateSourceMarker (deref (heap w) s)))
    eqn:Hm'.
  { assert (marked w s) as Hm by done.
    rewrite (internalReducer_init platform context s a w Hm) in Hrun.
    destruct (reduxable_reducer_run context (length (heap w)) a
      (mkWorld
         (heap w ++ [initialization_state platform context (deref (heap w) s)
                       (storage w !! target context)])
         (storage w) (setItemCalls w)
         (console w ++ initialization_warnings platform context
                         (storage w !! target context))))
      as (next & ext & Hrun' & _).
    rewrite Hrun in Hrun'. by injection Hrun' as -> ->. }
  assert (¬ marked w s) as Hm by (unfold marked; by rewrite Hm').
  destruct (internalReducer_normal platform context s a w Hm)
    as (next & ext & _ & _ & Heq).
  rewrite Hrun in Heq. injection Heq as -> ->.
  destruct (bool_decide (next ≠ s) && _); [|done].
  destruct (write (transform context) _) as [m|e] eqn:Hw;
    [|by apply app_singleton_neq in Hcon].
  destruct (JSON_stringify platform m) as [js|e] eqn:Hj;
    [|by apply app_singleton_neq in Hcon].
  destruct (storage_accepts _ _ _ _);
    [|by apply app_singleton_neq in Hcon].
  exists m, js. cbn [heap storage]. by rewrite Hw, lookup_insert_eq.
Qed.

(** A wrapper called on its own default state, in a world where [text] is
    stored at its key and can be read back as [o], runs the child's reducer
    on a new object with the properties [o]. *)
Lemma internalReducer_reads_back {M} (platform : Platform M)
    (context : ReduxLocalStorage M) (a : Action) (w : World)
    (text : string) (o : object) :
  storage w !! target context = Some text ->
  unmarshal platform context text = Normal o ->
  ∃ init w1,
    resumes_at context w w1 init o
    ∧ deref (heap w1) init = o
    ∧ (let* s0 := defaultState context in
       internalReducer platform context s0 a) w
      = reduxable_reducer context init a w1.
Proof.
  intros Hst Hu. unfold bind. rewrite defaultState_run.
  set (w0 := mkWorld _ _ _ _).
  assert (marked w0 (S (length (heap w)))) as Hm.
  { unfold marked. subst w0. cbn [heap].
    by rewrite deref_alloc_second, getProperty_defineProperty. }
  rewrite (internalReducer_init platform context _ a w0 Hm).
  replace (storage w0 !! target context) with (Some text) by done.
  unfold initialization_state, initialization_warnings. rewrite Hu.
  eexists (length (heap w0)), _. split; [|split; [|reflexivity]].
  - unfold resumes_at. subst w0. cbn [heap storage setItemCalls console].
    rewrite length_app, <- app_assoc, app_nil_r. cbn [length app].
    split; [lia | done].
  - cbn [heap]. apply deref_alloc.
Qed.

(** ** The fixture meets the assumptions *)

(** The fixture's reducer only defines [reducer] and [data]. *)
Lemma Test_reducer_marker_free (o : object) (a : Action) :
  marker_free o -> marker_free (next_properties Test.new o a).
Proof.
  unfold marker_free, next_properties. cbn [Test.new Reduxable_reducer].
  unfold Test.internalReducer. intros Ho.
  repeat case_match; simplify_eq;
    rewrite ?hasOwnProperty_defineProperty_ne, ?hasOwnProperty_spread,
      ?hasOwnProperty_defineProperty_ne, ?hasOwnProperty_spread by done;
    by rewrite ?Ho.
Qed.

(** The browser parses marker-free documents only. *)
Lemma Browser_unmarshal_marker_free (context : ReduxLocalStorage object)
    (text : string) (o : object) :
  transform context = transform rlsst ->
  unmarshal Browser.platform context text = Normal o -> marker_free o.
Proof.
  unfold unmarshal. intros ->. cbn [Browser.platform JSON_parse].
  unfold Browser.parse.
  destruct (List.find _ Browser.documents) as [d|] eqn:E; [|done].
  cbn. intros [= <-]. apply find_some in E as [Hin _].
  cbn in Hin. destruct Hin as [<-|[<-|[<-|[<-|[]]]]]; done.
Qed.

(** ** The repository's tests, run on the embedding *)

(** What the store does with a wrapper: the initialization dispatch of
    [createStore], then the dispatch of the test. *)
Lemma test_write_on_relevant_triggers :
  let text := ToString (Browser.stringify (VObject
                [ (Named "data", VString "am i writing");
                  (Named "reducer", VBoolean true);
                  (Named "updated", VObject []) ])) in
  let after (c : ReduxLocalStorage object) :=
    ((let* s0 := defaultState c in
      let* s1 := internalReducer Browser.platform c s0 INIT in
      internalReducer Browser.platform c s1 TEST) Browser.empty).2 in
  storage (after rlswt) !! "rlswt" = Some text
  ∧ storage (after rlsst) !! "rlsst" = Some text
  ∧ storage (after rlsnt) !! "rlsnt" = None.
Proof. vm_compute. done. Qed.

Lemma test_transform_before_writing :
  storage (internalReducer StringBrowser.platform writeTransformer 0%nat
             (mkAction "TEST" (VString "new data")) loaded).2
    !! "writeTransformer"
  = Some (Browser.dquote +:+ "Transformed write: new data" +:+ Browser.dquote).
Proof. vm_compute. done. Qed.

Lemma test_transform_after_reading :
  let w := mkWorld
    [ defineProperty defaultStateSourceMarker (VBoolean true) Test.defaultState ]
    {[ "readTransformer" := Browser.dquote +:+ "read me" +:+ Browser.dquote ]}
    [] [] in
  let r := internalReducer StringBrowser.platform readTransformer 0%nat INIT w in
  ∃ next, r.1 = Normal next
    ∧ deref (heap r.2) next
      = [ (Named "data", VString "Transformed read: read me");
          (Named "reducer", VBoolean true);
          (Named "updated", VObject []) ].
Proof. exists 1%nat. vm_compute. done. Qed.

Lemma test_warn_when_not_unmarshalled :
  let r := internalReducer Browser.platform broken 0%nat INIT corrupt in
  ∃ next, r.1 = Normal next
    ∧ deref (heap r.2) next
      = [ (Named "data", VString "");
          (Named "reducer", VBoolean true);
          (Named "updated", VObject []) ]
    ∧ (console r.2).*1 = ["Could not unmarshal state from localStorage"].
Proof. exists 2%nat. vm_compute. done. Qed.

Lemma test_warn_when_not_marshalled :
  let r := internalReducer Browser.circular rlsst 0%nat TEST loaded in
  ∃ next, r.1 = Normal next
    ∧ deref (heap r.2) next
      = [ (Named "data", VString "am i writing");
          (Named "reducer", VBoolean true);
          (Named "updated", VObject []) ]
    ∧ storage r.2 !! "rlsst" = None
    ∧ (console r.2).*1 = ["Could not marshal state to localStorage"].
Proof. exists 1%nat. vm_compute. done. Qed.

(** * The claims *)




(** C2. In the normal branch the write to storage is attempted exactly when
    the child's result is another reference than the input state and the
    triggers are undefined or list the action's type: then [setItem] is
    called once, on the wrapper's key, with the marshalled next state (or
    the marshal diagnostic is emitted, when marshalling throws), and
    otherwise nothing reaches the storage area or the console: no
    [setItem] call, no change of the area, no diagnostic.  With the empty
    list of triggers no action causes a write. *)
Theorem trigger_semantics {M} (platform : Platform M)
    (context : ReduxLocalStorage M) (s : loc) (a : Action) (w : World) :
  ¬ marked w s ->
  ∃ nextState w1 w',
    reduxable_reducer context s a w = (Normal nextState, w1)
    ∧ internalReducer platform context s a w = (Normal nextState, w')
    ∧ heap w' = heap w1
    ∧ (write_attempted platform context (deref (heap w1) nextState) w w'
       <-> nextState ≠ s ∧ triggered context a)
    ∧ (nothing_written w w' <-> ¬ (nextState ≠ s ∧ triggered context a))
    ∧ (triggers context = Some [] -> nothing_written w w').
Proof.
  intros Hm.
  assert (triggers context = Some [] -> ¬ triggered context a) as Hnil.
  { intros E [?|(ts & ? & Hin)]; simplify_eq. by apply elem_of_nil in Hin. }
  destruct (internalReducer_normal_outcome platform context s a w Hm)
    as (next & w1 & w' & Hrun & Hstep & Hheap & _ & Hyes & Hno).
  exists next, w1, w'. split; [done|]. split; [done|]. split; [done|].
  destruct (write_condition_dec context next s a) as [E|E].
  - pose proof (Hyes E) as Hatt.
    pose proof (write_attempted_not_nothing _ _ _ _ _ Hatt) as Hsome.
    split; [done|]. split; [split; [done | by intros H] |].
    intros Hts. destruct E as [_ E]. by apply Hnil in Hts.
  - pose proof (Hno E) as Hnone.
    split; [|done]. split; [|done].
    intros Hatt. by apply write_attempted_not_nothing in Hatt.
Qed.

Lemma trigger_semantics_witness :
  ¬ marked loaded 0
  ∧ (∃ w',
       internalReducer Browser.platform rlswt 0%nat TEST loaded = (Normal 1%nat, w')
       ∧ setItemCalls w'
         = [ ("rlswt",
              ToString (Browser.stringify (VObject
                [ (Named "data", VString "am i writing");
                  (Named "reducer", VBoolean true);
                  (Named "updated", VObject []) ]))) ]
       ∧ storage w' !! "rlswt"
         = Some (ToString (Browser.stringify (VObject
                   [ (Named "data", VString "am i writing");
                     (Named "reducer", VBoolean true);
                     (Named "updated", VObject []) ])))
       ∧ console w' = [])
  ∧ (∃ w',
       internalReducer Browser.platform rlsnt 0%nat TEST loaded = (Normal 1%nat, w')
       ∧ nothing_written loaded w').
Proof.
  split; [done|]. split.
  - destruct (trigger_semantics Browser.platform rlswt 0%nat TEST loaded)
      as (next & w1 & w' & Hrun & Hstep & _ & Hiff & _); [done|].
    vm_compute in Hrun. injection Hrun as <- <-.
    assert (write_attempted Browser.platform rlswt
              (deref (heap (reduxable_reducer rlswt 0%nat TEST loaded).2) 1%nat)
              loaded w') as Hatt.
    { apply Hiff. split; [done|]. right. exists ["TEST"]. split; [done|].
      apply list_elem_of_here. }
    exists w'. split; [done|].
    destruct Hatt as (Hcalls & Hst & Hcon).
    split; [exact Hcalls|]. split; [|exact Hcon].
    rewrite Hst. reflexivity.
  - destruct (trigger_semantics Browser.platform rlsnt 0%nat TEST loaded)
      as (next & w1 & w' & Hrun & Hstep & _ & _ & _ & Hnil); [done|].
    vm_compute in Hrun. injection Hrun as <- <-.
    exists w'. split; [done|]. by apply Hnil.
Defined.

(** C3. When marshalling the next state fails (the transform throws,
    [JSON.stringify] throws, or the storage area refuses the text), the
    reducer still returns the child's next state, the storage area is left
    as it was, exactly one diagnostic with the marshal-failure message is
    emitted, and the reducer completes normally. *)
Theorem marshal_failure_atomicity {M} (platform : Platform M)
    (context : ReduxLocalStorage M) (s : loc) (a : Action) (w w1 : World)
    (nextState : loc) (e : Exception) :
  ¬ marked w s ->
  reduxable_reducer context s a w = (Normal nextState, w1) ->
  nextState ≠ s ->
  triggered context a ->
  marshal_failure platform context (storage w1) (deref (heap w1) nextState) e ->
  ∃ w',
    internalReducer platform context s a w = (Normal nextState, w')
    ∧ heap w' = heap w1
    ∧ storage w' = storage w
    ∧ console w' = console w ++ [("Could not marshal state to localStorage", e)].
Proof.
  intros Hm Hrun Hne Ht Hfail.
  destruct (internalReducer_normal platform context s a w Hm)
    as (next & ext & Hrun' & _ & ->).
  rewrite Hrun in Hrun'. injection Hrun' as -> ->.
  cbn [heap storage] in Hfail.
  rewrite (bool_decide_eq_true_2 _ Hne), (proj2 (trigger_check context a) Ht).
  cbn [andb]. eexists. split; [reflexivity|].
  destruct Hfail as [Hw|[(m & Hw & Hj)|(m & str & Hw & Hj & Hq & ->)]].
  - by rewrite Hw.
  - by rewrite Hw, Hj.
  - by rewrite Hw, Hj, Hq.
Qed.

Lemma marshal_failure_atomicity_witness :
  ∃ w',
    internalReducer Browser.full rlsst 0%nat TEST loaded = (Normal 1%nat, w')
    ∧ storage w' = storage loaded
    ∧ console w'
      = [("Could not marshal state to localStorage",
          Error "QuotaExceededError" "The quota has been exceeded.")].
Proof.
  destruct (marshal_failure_atomicity Browser.full rlsst 0%nat TEST loaded
              (reduxable_reducer rlsst 0%nat TEST loaded).2 1%nat
              (Error "QuotaExceededError" "The quota has been exceeded."))
    as (w' & Hrun & _ & Hst & Hcon).
  - done.
  - reflexivity.
  - done.
  - by left.
  - right; right. eexists _, _. repeat split; reflexivity.
  - by exists w'.
Defined.

(** C4. On the initialization invocation, when storage holds a text at the
    key but parsing it or [transform.read] fails, exactly one diagnostic
    with the unmarshal-failure message is emitted; the initialization state
    is a new object, the shallow copy of the incoming default state without
    the marker: it has no marker, and every other enumerable own property
    is on it what it is on the incoming state; the child's reducer runs on
    it, and the reducer completes normally with the child's result. *)
Theorem unmarshal_failure_fallback {M} (platform : Platform M)
    (context : ReduxLocalStorage M) (s : loc) (a : Action) (w : World)
    (text : string) (e : Exception) :
  marked w s ->
  storage w !! target context = Some text ->
  (JSON_parse platform text = Throw e
   ∨ ∃ parsed, JSON_parse platform text = Normal parsed
               ∧ read (transform context) parsed = Throw e) ->
  ∃ inputState copy w1 next w',
    heap w !! inputState = None
    ∧ heap w1 = heap w ++ [copy]
    ∧ heap w1 !! inputState = Some copy
    ∧ copy = stripped_copy (deref (heap w) s)
    ∧ marker_free copy
    ∧ (∀ k, enumerable k = true -> k ≠ defaultStateSourceMarker ->
            getProperty k copy = getProperty k (deref (heap w) s)
            ∧ hasOwnProperty k copy = hasOwnProperty k (deref (heap w) s))
    ∧ storage w1 = storage w
    ∧ setItemCalls w1 = setItemCalls w
    ∧ console w1
      = console w ++ [("Could not unmarshal state from localStorage", e)]
    ∧ internalReducer platform context s a w
      = reduxable_reducer context inputState a w1
    ∧ internalReducer platform context s a w = (Normal next, w')
    ∧ console w' = console w1
    ∧ deref (heap w') next = next_properties (reduxable context) copy a.
Proof.
  intros Hm Hst Hfail.
  assert (unmarshal platform context text = Throw e) as Hu.
  { unfold unmarshal. destruct Hfail as [->|(parsed & -> & ->)]; done. }
  rewrite (internalReducer_init platform context s a w Hm).
  unfold initialization_state, initialization_warnings. rewrite Hst, Hu.
  set (copy := stripped_copy (deref (heap w) s)).
  set (w1 := mkWorld (heap w ++ [copy])
    (storage w) (setItemCalls w) (console w ++ [(unmarshal_message, e)])).
  destruct (reduxable_reducer_run context (length (heap w)) a w1)
    as (next & ext & Hrun & Hnext).
  exists (length (heap w)), copy, w1, next. eexists.
  split; [by apply lookup_ge_None_2|].
  split; [done|].
  split; [subst w1; cbn [heap]; by rewrite lookup_app_r, Nat.sub_diag by lia|].
  split; [done|].
  split; [apply marker_free_stripped_copy|].
  split.
  { intros k Hk Hne. subst copy.
    rewrite getProperty_stripped_copy, hasOwnProperty_stripped_copy by done.
    by rewrite Hk, bool_decide_eq_false_2. }
  split; [done|]. split; [done|]. split; [done|]. split; [done|].
  split; [exact Hrun|]. split; [done|].
  cbn [heap]. rewrite Hnext. subst w1. cbn [heap]. by rewrite deref_alloc.
Qed.

Lemma unmarshal_failure_fallback_witness :
  marked corrupt 0
  ∧ deref (heap corrupt) 0
    = [ (Named "data", VString "");
        (Named "reducer", VBoolean false);
        (Named "updated", VObject []);
        (defaultStateSourceMarker, VBoolean true) ]
  ∧ storage corrupt !! target broken = Some broken_text
  ∧ JSON_parse Browser.platform broken_text
    = Throw (Error "SyntaxError" "Unexpected end of JSON input")
  ∧ ∃ copy next w',
      internalReducer Browser.platform broken 0%nat TEST corrupt = (Normal next, w')
      ∧ copy = [ (Named "data", VString "");
                 (Named "reducer", VBoolean false);
                 (Named "updated", VObject []) ]
      ∧ heap w' !! 1%nat = Some copy
      ∧ deref (heap w') next
        = [ (Named "data", VString "am i writing");
            (Named "reducer", VBoolean true);
            (Named "updated", VObject []) ]
      ∧ console w'
        = [("Could not unmarshal state from localStorage",
            Error "SyntaxError" "Unexpected end of JSON input")].
Proof.
  split; [reflexivity|]. split; [reflexivity|].
  split; [reflexivity|]. split; [reflexivity|].
  destruct (unmarshal_failure_fallback Browser.platform broken 0%nat TEST corrupt
              broken_text (Error "SyntaxError" "Unexpected end of JSON input"))
    as (init & copy & w1 & next & w' & _ & _ & _ & Hcopy & _ & _ & _ & _ & Hcon1
        & _ & Hrun & Hcon & Hnext).
  - reflexivity.
  - reflexivity.
  - by left.
  - exists copy, next, w'. split; [done|].
    split; [by rewrite Hcopy|].
    split.
    + vm_compute in Hrun. injection Hrun as <- <-. by rewrite Hcopy.
    + split; [by rewrite Hnext, Hcopy | by rewrite Hcon, Hcon1].
Defined.

(** C5. Round trip.  When a wrapper persists the state [S] it returns, what
    it stores at its key is the JSON serialization of [transform.write(S)];
    a new wrapper with the same key and transform, called on its marked
    default state, then takes [transform.read] of the parsed text as its
    initialization state, a new object, and hands it to the child's
    reducer, with no diagnostic.  With the default (identity) transform
    that state is [S] whenever [JSON.parse] gives back what
    [JSON.stringify] was given. *)
Theorem round_trip {M} (platform : Platform M)
    (writer reader : ReduxLocalStorage M) (s : loc) (a : Action)
    (w w1 : World) (nextState : loc) :
  target reader = target writer ->
  transform reader = transform writer ->
  internalReducer platform writer s a w = (Normal nextState, w1) ->
  setItemCalls w1 ≠ setItemCalls w ->
  console w1 = console w ->
  ∃ m js,
    write (transform writer) (deref (heap w1) nextState) = Normal m
    ∧ JSON_stringify platform m = Normal js
    ∧ storage w1 !! target writer = Some (ToString js)
    ∧ ∀ (w2 : World) (a' : Action),
        storage w2 = storage w1 ->
        (∀ m' S',
           JSON_parse platform (ToString js) = Normal m' ->
           read (transform writer) m' = Normal S' ->
           ∃ init w3,
             resumes_at reader w2 w3 init S'
             ∧ deref (heap w3) init = S'
             ∧ (let* s0 := defaultState reader in
                internalReducer platform reader s0 a') w2
               = reduxable_reducer reader init a' w3)
        ∧ (∀ (as_state : M -> object) (as_stored : object -> M),
             (∀ o, as_state (as_stored o) = o) ->
             transform writer
             = transform (constructor as_state as_stored (reduxable writer)
                            (target writer) None) ->
             JSON_parse platform (ToString js) = Normal m ->
             ∃ init w3,
               resumes_at reader w2 w3 init (deref (heap w1) nextState)
               ∧ deref (heap w3) init = deref (heap w1) nextState
               ∧ (let* s0 := defaultState reader in
                  internalReducer platform reader s0 a') w2
                 = reduxable_reducer reader init a' w3).
Proof.
  intros Hkey Htr Hrun Hcalls Hcon.
  destruct (internalReducer_persisted platform writer s a w w1 nextState
              Hrun Hcalls Hcon) as (m & js & Hw & Hj & Hst).
  exists m, js. split; [done|]. split; [done|]. split; [done|].
  intros w2 a' Hw2.
  assert (storage w2 !! target reader = Some (ToString js)) as Hst2
    by by rewrite Hw2, Hkey.
  split.
  - intros m' S' Hparse Hread.
    apply (internalReducer_reads_back platform reader a' w2 (ToString js) S' Hst2).
    unfold unmarshal. by rewrite Hparse, Htr.
  - intros as_state as_stored Hcast Hid Hparse.
    apply (internalReducer_reads_back platform reader a' w2 (ToString js) _ Hst2).
    unfold unmarshal. rewrite Hparse, Htr, Hid. cbn [constructor transform read].
    rewrite Hid in Hw. cbn [constructor transform write] in Hw.
    injection Hw as <-. by rewrite Hcast.
Qed.

Lemma round_trip_witness :
  ∃ init w3,
    deref (heap w3) init
      = [ (Named "data", VString "am i writing");
          (Named "reducer", VBoolean true);
          (Named "updated", VObject []) ]
    ∧ (let* s0 := defaultState rlsst in
       internalReducer Browser.platform rlsst s0 INIT)
        (internalReducer Browser.platform rlsst 0%nat TEST loaded).2
      = reduxable_reducer rlsst init INIT w3.
Proof.
  destruct (round_trip Browser.platform rlsst rlsst 0%nat TEST loaded
              (internalReducer Browser.platform rlsst 0%nat TEST loaded).2 1%nat)
    as (m & js & Hw & Hj & _ & Hread).
  - reflexivity.
  - reflexivity.
  - reflexivity.
  - intros H. vm_compute in H. discriminate H.
  - reflexivity.
  - vm_compute in Hw. injection Hw as <-.
    vm_compute in Hj. injection Hj as <-.
    destruct (Hread (internalReducer Browser.platform rlsst 0%nat TEST loaded).2
                INIT eq_refl) as [_ Hid].
    destruct (Hid id id) as (init & w3 & _ & Hinit & Hrun);
      [done | reflexivity | reflexivity |].
    exists init, w3. split; [|exact Hrun].
    rewrite Hinit. reflexivity.
Defined.

(** With the identity transform the state read back is not always the
    state persisted.  [JSON.stringify] leaves out a property whose value
    is [undefined]: after a [TEST] action without data the state returned
    has a [data] property, and the state a new wrapper starts from has
    none.  And it prints a [Map] as an empty object: after a [TEST] action
    whose data is a [Map], the state a new wrapper starts from holds a
    plain object in [data]. *)
Lemma round_trip_counterexample :
  (∃ w1,
     internalReducer Browser.platform rlsst 0%nat CLEAR loaded = (Normal 1%nat, w1)
     ∧ deref (heap w1) 1%nat
       = [ (Named "data", VUndefined);
           (Named "reducer", VBoolean true);
           (Named "updated", VObject []) ]
     ∧ setItemCalls w1
       = [ ("rlsst",
            ToString (Browser.stringify (VObject
              [ (Named "reducer", VBoolean true);
                (Named "updated", VObject []) ]))) ]
     ∧ storage w1 !! "rlsst"
       = Some (ToString (Browser.stringify (VObject
                 [ (Named "reducer", VBoolean true);
                   (Named "updated", VObject []) ])))
     ∧ console w1 = []
     ∧ transform rlsst = transform (constructor id id Test.new "rlsst" None)
     ∧ ∃ s0 w2 next w3,
         defaultState rlsst w1 = (Normal s0, w2)
         ∧ initialization_state Browser.platform rlsst (deref (heap w2) s0)
             (storage w2 !! "rlsst")
           = [ (Named "reducer", VBoolean true);
               (Named "updated", VObject []) ]
         ∧ internalReducer Browser.platform rlsst s0 INIT w2 = (Normal next, w3)
         ∧ deref (heap w3) next
           = [ (Named "reducer", VBoolean true);
               (Named "updated", VObject []) ]
         ∧ deref (heap w3) next ≠ deref (heap w1) 1%nat)
  ∧ (∃ w1,
       internalReducer Browser.platform rlsst 0%nat MAPPED loaded = (Normal 1%nat, w1)
       ∧ deref (heap w1) 1%nat
         = [ (Named "data",
              VObject [ (Internal "[[Prototype]]", VString "Map.prototype") ]);
             (Named "reducer", VBoolean true);
             (Named "updated", VObject []) ]
       ∧ storage w1 !! "rlsst"
         = Some (ToString (Browser.stringify (VObject
                   [ (Named "data", VObject []);
                     (Named "reducer", VBoolean true);
                     (Named "updated", VObject []) ])))
       ∧ console w1 = []
       ∧ ∃ s0 w2 next w3,
           defaultState rlsst w1 = (Normal s0, w2)
           ∧ internalReducer Browser.platform rlsst s0 INIT w2 = (Normal next, w3)
           ∧ deref (heap w3) next
             = [ (Named "data", VObject []);
                 (Named "reducer", VBoolean true);
                 (Named "updated", VObject []) ]
           ∧ deref (heap w3) next ≠ deref (heap w1) 1%nat).
Proof.
  split.
  - eexists. split; [vm_compute; reflexivity|].
    split; [reflexivity|]. split; [reflexivity|]. split; [reflexivity|].
    split; [reflexivity|]. split; [reflexivity|].
    eexists _, _, _, _. split; [vm_compute; reflexivity|].
    split; [reflexivity|]. split; [vm_compute; reflexivity|].
    split; [reflexivity|]. vm_compute. discriminate.
  - eexists. split; [vm_compute; reflexivity|].
    split; [reflexivity|]. split; [reflexivity|]. split; [reflexivity|].
    eexists _, _, _, _. split; [vm_compute; reflexivity|].
    split; [vm_compute; reflexivity|].
    split; [reflexivity|]. vm_compute. discriminate.
Qed.

(** C6. Marker hygiene, for a child whose reducer does not set the marker
    key and a [transform.read] that does not return it: the [defaultState]
    getter returns a marked object; every state the reducer returns, on
    the initialization invocation and on every later one, has no marker;
    and every text handed to [setItem] is the serialization of the
    transform of a state without marker. *)
Theorem marker_hygiene {M} (platform : Platform M)
    (context : ReduxLocalStorage M) :
  (∀ o a, marker_free o -> marker_free (next_properties (reduxable context) o a)) ->
  (∀ text o, unmarshal platform context text = Normal o -> marker_free o) ->
  (∀ w, ∃ s0 w0,
      defaultState context w = (Normal s0, w0)
      ∧ getProperty defaultStateSourceMarker (deref (heap w0) s0) = VBoolean true)
  ∧ (∀ actions s w,
      marked w s ∨ marker_free (deref (heap w) s) ->
      ∃ states w' new,
        dispatch (internalReducer platform context) s actions w
          = (Normal states, w')
        ∧ Forall marker_free states
        ∧ setItemCalls w' = setItemCalls w ++ new
        ∧ Forall (serialized_marker_free platform context) new)
  ∧ (∀ actions w,
      ∃ states w' new,
        wrapper_states platform context actions w = (Normal states, w')
        ∧ Forall marker_free states
        ∧ setItemCalls w' = setItemCalls w ++ new
        ∧ Forall (serialized_marker_free platform context) new).
Proof.
  intros Hchild Hread.
  assert (∀ w, deref (heap (defaultState context w).2)
                 (S (length (heap w)))
               = defineProperty defaultStateSourceMarker (VBoolean true)
                   (spread (Reduxable_defaultState (reduxable context))))
    as Hs0.
  { intros w. rewrite defaultState_run. cbn [snd heap].
    apply deref_alloc_second. }
  split; [|split].
  - intros w. specialize (Hs0 w). rewrite defaultState_run in *.
    eexists _, _. split; [reflexivity|].
    cbn [snd] in Hs0. by rewrite Hs0, getProperty_defineProperty.
  - intros actions s w. by apply dispatch_hygiene.
  - intros actions w. specialize (Hs0 w).
    unfold wrapper_states, bind. rewrite defaultState_run in *.
    cbn [snd] in Hs0.
    set (w0 := mkWorld _ _ _ _) in *.
    destruct (dispatch_hygiene platform context actions Hchild Hread
                (S (length (heap w))) w0)
      as (states & w' & new & Hrun & Hall & Hcalls & Hser).
    { left. unfold marked. by rewrite Hs0, getProperty_defineProperty. }
    exists states, w', new. by rewrite Hrun.
Qed.

Lemma marker_hygiene_witness :
  (∀ o a, marker_free o -> marker_free (next_properties (reduxable rlsst) o a))
  ∧ (∀ text o, unmarshal Browser.platform rlsst text = Normal o -> marker_free o)
  ∧ ∃ states w' new,
      wrapper_states Browser.platform rlsst [INIT; TEST] Browser.empty
        = (Normal states, w')
      ∧ Forall marker_free states
      ∧ setItemCalls w' = setItemCalls Browser.empty ++ new
      ∧ Forall (serialized_marker_free Browser.platform rlsst) new.
Proof.
  split; [exact Test_reducer_marker_free|].
  split; [exact (fun text o => Browser_unmarshal_marker_free rlsst text o eq_refl)|].
  apply (marker_hygiene Browser.platform rlsst Test_reducer_marker_free
           (fun text o => Browser_unmarshal_marker_free rlsst text o eq_refl)).
Defined.

(** The marker is stripped on the fallback path only.  A [transform.read]
    that marks what it reads gets its marked state through: every state
    the reducer returns is then marked and nothing is persisted; and a
    child whose reducer sets the marker gets it through in the same way. *)
Lemma marker_hygiene_counterexample :
  (∃ w',
     wrapper_states Browser.platform remarked [INIT; TEST] revisited
     = (Normal
          [ [ (Named "data", VString "i was already here");
              (Named "reducer", VBoolean true);
              (Named "updated", VObject []);
              (defaultStateSourceMarker, VBoolean true) ];
            [ (Named "data", VString "am i writing");
              (Named "reducer", VBoolean true);
              (Named "updated", VObject []);
              (defaultStateSourceMarker, VBoolean true) ] ], w')
     ∧ setItemCalls w' = []
     ∧ ¬ marker_free
           [ (Named "data", VString "i was already here");
             (Named "reducer", VBoolean true);
             (Named "updated", VObject []);
             (defaultStateSourceMarker, VBoolean true) ])
  ∧ (∃ w',
       wrapper_states Browser.platform marking_wrapper [INIT] Browser.empty
       = (Normal
            [ [ (Named "data", VString "");
                (defaultStateSourceMarker, VBoolean true) ] ], w')
       ∧ ¬ marker_free
             [ (Named "data", VString "");
               (defaultStateSourceMarker, VBoolean true) ]).
Proof.
  split.
  - eexists. split; [vm_compute; reflexivity|]. split; [reflexivity|].
    vm_compute. discriminate.
  - eexists. split; [vm_compute; reflexivity|]. vm_compute. discriminate.
Qed.

(** C7. On the initialization invocation the reducer returns exactly what
    the child's reducer returns on the resolved initialization state, a new
    object, and the incoming action.  The initialization state is the state
    read back from storage when a text is stored and can be read; otherwise
    it is the shallow copy of the incoming default state without the
    marker: it has no marker, and every other enumerable own property is
    on it what it is on the incoming state. *)
Theorem initialization_processes_action {M} (platform : Platform M)
    (context : ReduxLocalStorage M) (s : loc) (a : Action) (w : World) :
  marked w s ->
  ∃ inputState init w1 next w',
    heap w !! inputState = None
    ∧ heap w1 = heap w ++ [init]
    ∧ deref (heap w1) inputState = init
    ∧ storage w1 = storage w
    ∧ setItemCalls w1 = setItemCalls w
    ∧ console w1
      = console w
        ++ initialization_warnings platform context (storage w !! target context)
    ∧ init = initialization_state platform context (deref (heap w) s)
               (storage w !! target context)
    ∧ (∀ text o,
         storage w !! target context = Some text ->
         unmarshal platform context text = Normal o ->
         init = o)
    ∧ (storage w !! target context = None
       ∨ (∃ text e, storage w !! target context = Some text
                    ∧ unmarshal platform context text = Throw e) ->
       init = stripped_copy (deref (heap w) s)
       ∧ marker_free init
       ∧ ∀ k, enumerable k = true -> k ≠ defaultStateSourceMarker ->
              getProperty k init = getProperty k (deref (heap w) s)
              ∧ hasOwnProperty k init = hasOwnProperty k (deref (heap w) s))
    ∧ internalReducer platform context s a w
      = reduxable_reducer context inputState a w1
    ∧ internalReducer platform context s a w = (Normal next, w')
    ∧ deref (heap w') next = next_properties (reduxable context) init a.
Proof.
  intros Hm. rewrite (internalReducer_init platform context s a w Hm).
  set (init := initialization_state _ _ _ _).
  set (w1 := mkWorld _ _ _ _).
  destruct (reduxable_reducer_run context (length (heap w)) a w1)
    as (next & ext & Hrun & Hnext).
  assert (deref (heap w1) (length (heap w)) = init) as Hinit
    by apply deref_alloc.
  exists (length (heap w)), init, w1, next. eexists.
  split; [by apply lookup_ge_None_2|]. split; [done|].
  split; [done|]. split; [done|]. split; [done|]. split; [done|].
  split; [done|].
  split.
  { intros text o Hst Hu. subst init. unfold initialization_state.
    by rewrite Hst, Hu. }
  split.
  { intros Hfb.
    assert (init = stripped_copy (deref (heap w) s)) as ->.
    { subst init. unfold initialization_state.
      destruct Hfb as [->|(text & e & -> & ->)]; done. }
    split; [done|]. split; [apply marker_free_stripped_copy|].
    intros k Hk Hne.
    rewrite getProperty_stripped_copy, hasOwnProperty_stripped_copy by done.
    by rewrite Hk, bool_decide_eq_false_2. }
  split; [done|]. split; [exact Hrun|].
  cbn [heap]. by rewrite Hnext, Hinit.
Qed.

Lemma initialization_processes_action_witness :
  (marked pristine 0
   ∧ deref (heap pristine) 0
     = [ (Named "data", VString "");
         (Named "reducer", VBoolean false);
         (Named "updated", VObject []);
         (defaultStateSourceMarker, VBoolean true) ]
   ∧ storage pristine !! target rlswt = None
   ∧ ∃ inputState next w',
       internalReducer Browser.platform rlswt 0%nat TEST pristine = (Normal next, w')
       ∧ deref (heap w') inputState
         = [ (Named "data", VString "");
             (Named "reducer", VBoolean false);
             (Named "updated", VObject []) ]
       ∧ deref (heap w') next
         = [ (Named "data", VString "am i writing");
             (Named "reducer", VBoolean true);
             (Named "updated", VObject []) ])
  ∧ (marked revisited 0
     ∧ ∃ inputState next w',
         internalReducer Browser.platform rlsst 0%nat CLEAR revisited = (Normal next, w')
         ∧ deref (heap w') inputState
           = [ (Named "data", VString "i was already here");
               (Named "reducer", VBoolean true);
               (Named "updated", VObject []) ]
         ∧ deref (heap w') next
           = [ (Named "data", VUndefined);
               (Named "reducer", VBoolean true);
               (Named "updated", VObject []) ]).
Proof.
  split.
  - split; [reflexivity|]. split; [reflexivity|]. split; [reflexivity|].
    destruct (initialization_processes_action Browser.platform rlswt 0%nat TEST pristine)
      as (inputState & init & w1 & next & w' & _ & _ & Hin & _ & _ & _ & _ & _
          & Hfb & Heq & Hrun & Hnext);
      [reflexivity|].
    destruct (Hfb (or_introl eq_refl)) as (Hinit & _ & _).
    exists 1%nat, next, w'. split; [done|].
    split.
    + vm_compute in Hrun. by injection Hrun as <- <-.
    + by rewrite Hnext, Hinit.
  - split; [reflexivity|].
    destruct (initialization_processes_action Browser.platform rlsst 0%nat CLEAR revisited)
      as (inputState & init & w1 & next & w' & _ & _ & Hin & _ & _ & _ & _
          & Hload & _ & Heq & Hrun & Hnext);
      [reflexivity|].
    pose proof (Hload _ _ eq_refl eq_refl) as Hinit.
    exists 1%nat, next, w'. split; [done|].
    split.
    + vm_compute in Hrun. by injection Hrun as <- <-.
    + by rewrite Hnext, Hinit.
Defined.

(** C8. Reading [actionMap] throws, whatever the wrapper was built from:
    the getter completes with the error of the source, never with a value,
    and has no other effect. *)
Theorem actionMap_throws {M} (as_state : M -> object) (as_stored : object -> M)
    (child : Reduxable) (key : string)
    (options : option (ReduxLocalStorageOptions M)) (w : World) :
  actionMap (constructor as_state as_stored child key options) w
  = (Throw (Error "Error"
      "ReduxLocalStorage.actionMap should only be used as a TypeScript type provider (typeof .actionMap)"),
     w)
  ∧ ∀ v w', actionMap (constructor as_state as_stored child key options) w
            ≠ (Normal v, w').
Proof.
  split.
  - reflexivity.
  - intros v w' H. unfold actionMap, lift in H. discriminate H.
Qed.

(** C9. On the initialization invocation the reducer never writes to
    storage: the storage area is as it was and [setItem] is not called,
    whatever the child returns and whatever the triggers are. *)
Theorem no_persistence_during_initialization {M} (platform : Platform M)
    (context : ReduxLocalStorage M) (s : loc) (a : Action) (w : World) :
  marked w s ->
  storage (internalReducer platform context s a w).2 = storage w
  ∧ setItemCalls (internalReducer platform context s a w).2 = setItemCalls w.
Proof.
  intros Hm. rewrite (internalReducer_init platform context s a w Hm).
  set (w1 := mkWorld _ _ _ _).
  destruct (reduxable_reducer_run context (length (heap w)) a w1)
    as (next & ext & -> & _).
  done.
Qed.

Lemma no_persistence_during_initialization_witness :
  marked pristine 0
  ∧ storage (internalReducer Browser.platform rlswt 0%nat TEST pristine).2 = ∅
  ∧ setItemCalls (internalReducer Browser.platform rlswt 0%nat TEST pristine).2 = [].
Proof.
  split; [reflexivity|].
  apply (no_persistence_during_initialization Browser.platform rlswt 0%nat TEST pristine).
  reflexivity.
Defined.

(** C10. The [defaultState] getter returns a new object, a spread copy of
    the child's default state with the marker attached (the marker reads
    [true] on it, every other enumerable own property is the child's), and
    modifies no existing object, the child's default state included; the
    fallback path of the reducer strips the marker from a new spread copy
    (which has no marker and keeps every other enumerable own property)
    and leaves the incoming state object, marker and all, as it was. *)
Theorem defaultState_does_not_mutate_child {M} (platform : Platform M)
    (context : ReduxLocalStorage M) :
  (∀ w, ∃ d c w',
      (reduxable_defaultState context w).1 = Normal d
      ∧ defaultState context w = (Normal c, w')
      ∧ c ≠ d
      ∧ heap w !! c = None
      ∧ heap w' !! d = Some (Reduxable_defaultState (reduxable context))
      ∧ heap w' !! c
        = Some (defineProperty defaultStateSourceMarker (VBoolean true)
                  (spread (Reduxable_defaultState (reduxable context))))
      ∧ (∀ l o, heap w !! l = Some o -> heap w' !! l = Some o)
      ∧ getProperty defaultStateSourceMarker (deref (heap w') c) = VBoolean true
      ∧ (∀ k, enumerable k = true -> k ≠ defaultStateSourceMarker ->
              getProperty k (deref (heap w') c)
              = getProperty k (Reduxable_defaultState (reduxable context))))
  ∧ (∀ s a w,
      marked w s ->
      (∀ l o, heap w !! l = Some o ->
              heap (internalReducer platform context s a w).2 !! l = Some o)
      ∧ marked (internalReducer platform context s a w).2 s
      ∧ (storage w !! target context = None
         ∨ (∃ text e, storage w !! target context = Some text
                      ∧ unmarshal platform context text = Throw e) ->
         ∃ c w1,
           c ≠ s
           ∧ heap w !! c = None
           ∧ heap w1 !! c
             = Some (deleteProperty defaultStateSourceMarker
                       (spread (deref (heap w) s)))
           ∧ heap w1 !! s = heap w !! s
           ∧ internalReducer platform context s a w
             = reduxable_reducer context c a w1
           ∧ marker_free (deref (heap w1) c)
           ∧ (∀ k, enumerable k = true -> k ≠ defaultStateSourceMarker ->
                   getProperty k (deref (heap w1) c)
                   = getProperty k (deref (heap w) s)))).
Proof.
  split.
  - intros w. exists (length (heap w)), (S (length (heap w))). eexists.
    split; [done|]. split; [apply defaultState_run|]. cbn [heap].
    split; [lia|]. split; [apply lookup_ge_None_2; lia|].
    split; [by rewrite lookup_app_r, Nat.sub_diag by lia|].
    split.
    { rewrite lookup_app_r by lia.
      by replace (S (length (heap w)) - length (heap w))%nat with 1%nat by lia. }
    split; [intros l o; apply lookup_app_old|].
    rewrite deref_alloc_second.
    split; [apply getProperty_defineProperty|].
    intros k Hk Hne.
    by rewrite getProperty_defineProperty_ne, getProperty_spread.
  - intros s a w Hm.
    pose proof (marked_allocated w s Hm) as Hlt.
    rewrite (internalReducer_init platform context s a w Hm).
    set (init := initialization_state _ _ _ _).
    set (w1 := mkWorld _ _ _ _).
    destruct (reduxable_reducer_run context (length (heap w)) a w1)
      as (next & ext & Hrun & _).
    assert (∀ l o, heap w !! l = Some o ->
                   ((heap w ++ [init]) ++ ext) !! l = Some o) as Hold.
    { intros l o H. by do 2 apply lookup_app_old. }
    split; [|split].
    + rewrite Hrun. exact Hold.
    + rewrite Hrun. unfold marked in *. subst w1. cbn [snd heap].
      destruct (heap w !! s) as [o|] eqn:E.
      * unfold deref in *. rewrite E in Hm. by rewrite (Hold s o E).
      * apply lookup_ge_None in E. lia.
    + intros Hfb. exists (length (heap w)), w1.
      split; [lia|]. split; [by apply lookup_ge_None_2|].
      assert (init = deleteProperty defaultStateSourceMarker
                       (spread (deref (heap w) s))) as ->.
      { subst init. unfold initialization_state. rewrite deleteProperty_spread.
        destruct Hfb as [->|(text & e & -> & ->)]; done. }
      subst w1. cbn [heap].
      split; [by rewrite lookup_app_r, Nat.sub_diag by lia|].
      split; [by rewrite lookup_app_l by lia|]. split; [done|].
      rewrite deref_alloc, deleteProperty_spread.
      split; [apply marker_free_stripped_copy|].
      intros k Hk Hne. by apply getProperty_stripped_copy.
Qed.

Lemma defaultState_does_not_mutate_child_witness :
  marked pristine 0
  ∧ marked (internalReducer Browser.platform rlswt 0%nat TEST pristine).2 0.
Proof.
  split; [reflexivity|].
  apply (proj2 (defaultState_does_not_mutate_child Browser.platform rlswt)
           0%nat TEST pristine).
  reflexivity.
Defined.

(** * Further properties of the reducer *)

Lemma marked_or_not (w : World) (s : loc) : marked w s ∨ ¬ marked w s.
Proof.
  unfold marked.
  destruct (truthy (getProperty defaultStateSourceMarker (deref (heap w) s)));
    [by left | by right].
Qed.

(** What one call does to the world: the heap grows, [setItem] is called at
    most once and on the wrapper's key, at most one diagnostic is emitted. *)
Lemma internalReducer_effects {M} (platform : Platform M)
    (context : ReduxLocalStorage M) (s : loc) (a : Action) (w : World) :
  ∃ next w' ext calls warns,
    internalReducer platform context s a w = (Normal next, w')
    ∧ heap w' = heap w ++ ext
    ∧ setItemCalls w' = setItemCalls w ++ calls
    ∧ console w' = console w ++ warns
    ∧ (marked w s ->
       calls = []
       ∧ storage w' = storage w
       ∧ warns = initialization_warnings platform context
                   (storage w !! target context))
    ∧ (¬ marked w s ->
       (calls = [] ∧ storage w' = storage w
        ∨ ∃ text, calls = [(target context, text)]
                  ∧ marshal platform context (deref (heap w') next) = Normal text
                  ∧ (storage w' = <[target context := text]> (storage w)
                       ∧ warns = []
                     ∨ storage w' = storage w
                       ∧ ∃ e, warns = [(marshal_message, e)]))
       ∧ (warns = [] ∨ ∃ e, warns = [(marshal_message, e)])).
Proof.
  destruct (marked_or_not w s) as [Hm|Hm].
  - rewrite (internalReducer_init platform context s a w Hm).
    set (init := initialization_state _ _ _ _).
    set (w1 := mkWorld _ _ _ _).
    destruct (reduxable_reducer_run context (length (heap w)) a w1)
      as (next & ext & Hrun & _).
    exists next. eexists. exists ([init] ++ ext), []. eexists.
    split; [exact Hrun|]. subst w1. cbn [heap setItemCalls console storage].
    split; [by rewrite <- app_assoc|]. split; [by rewrite app_nil_r|].
    split; [reflexivity|]. split; [done|]. intros Hn. by destruct Hn.
  - destruct (internalReducer_normal platform context s a w Hm)
      as (next & ext & _ & _ & ->).
    unfold marshal.
    destruct (bool_decide (next ≠ s) && _).
    + destruct (write (transform context) _) as [m|e] eqn:Hw.
      * destruct (JSON_stringify platform m) as [js|e] eqn:Hj.
        -- destruct (storage_accepts _ _ _ _).
           ++ exists next. eexists. exists ext, [(target context, ToString js)], [].
              split; [reflexivity|]. cbn [heap setItemCalls console storage].
              rewrite Hw, Hj, app_nil_r. repeat split; try done.
              ** right. eexists. split; [done|]. split; [done|]. by left.
              ** by left.
           ++ exists next. eexists. exists ext, [(target context, ToString js)]. eexists.
              split; [reflexivity|]. cbn [heap setItemCalls console storage].
              rewrite Hw, Hj. repeat split; try done.
              ** right. eexists. split; [done|]. split; [done|]. right.
                 split; [done|]. by eexists.
              ** right. by eexists.
        -- exists next. eexists. exists ext, []. eexists.
           split; [reflexivity|]. cbn [heap setItemCalls console storage].
           rewrite app_nil_r. repeat split; try done.
           ** by left.
           ** right. by eexists.
      * exists next. eexists. exists ext, []. eexists.
        split; [reflexivity|]. cbn [heap setItemCalls console storage].
        rewrite app_nil_r. repeat split; try done.
        ** by left.
        ** right. by eexists.
    + exists next. eexists. exists ext, [], [].
      split; [reflexivity|]. cbn [heap setItemCalls console storage].
      rewrite !app_nil_r. repeat split; try done.
      ** by left.
      ** by left.
Qed.

(** X2. The reducer writes at its own key only: every other key of the
    storage area holds after a call what it held before, and no key that
    held a text loses it. *)
Theorem storage_written_at_target_only {M} (platform : Platform M)
    (context : ReduxLocalStorage M) (s : loc) (a : Action) (w : World)
    (key : string) :
  (key ≠ target context ->
   storage (internalReducer platform context s a w).2 !! key = storage w !! key)
  ∧ (is_Some (storage w !! key) ->
     is_Some (storage (internalReducer platform context s a w).2 !! key)).
Proof.
  destruct (internalReducer_effects platform context s a w)
    as (next & w' & ext & calls & warns & -> & _ & _ & _ & Hinit & Hnormal).
  cbn [snd].
  assert (storage w' = storage w
          ∨ ∃ text, storage w' = <[target context := text]> (storage w)) as Hst.
  { destruct (marked_or_not w s) as [Hm|Hm].
    - left. by apply Hinit.
    - destruct (Hnormal Hm) as [[[_ ?]|(text & _ & _ & [[? _]|[? _]])] _];
        [by left | right; by exists text | by left]. }
  destruct Hst as [->|[text ->]]; [done|]. split.
  - intros Hne. by rewrite lookup_insert_ne.
  - intros Hsome. destruct (decide (target context = key)) as [->|Hne].
    + rewrite lookup_insert_eq. by eexists.
    + by rewrite lookup_insert_ne.
Qed.

Lemma storage_written_at_target_only_witness :
  storage (internalReducer Browser.platform rlswt 0%nat TEST
             (mkWorld (heap loaded) {[ "other" := "kept" ]} [] [])).2 !! "other"
  = Some "kept".
Proof.
  rewrite (proj1 (storage_written_at_target_only Browser.platform rlswt 0%nat TEST
                    (mkWorld (heap loaded) {[ "other" := "kept" ]} [] []) "other")).
  - reflexivity.
  - discriminate.
Defined.

(** X3. The reducer modifies no object that exists when it is called, in
    either branch: the heap it leaves is the heap it found followed by the
    objects it allocated, so that every reference that pointed to an
    object points to the same object afterwards. *)
Theorem existing_objects_untouched {M} (platform : Platform M)
    (context : ReduxLocalStorage M) (s : loc) (a : Action) (w : World) :
  (∃ ext, heap (internalReducer platform context s a w).2 = heap w ++ ext)
  ∧ ∀ l o, heap w !! l = Some o ->
           heap (internalReducer platform context s a w).2 !! l = Some o.
Proof.
  destruct (internalReducer_effects platform context s a w)
    as (next & w' & ext & calls & warns & -> & Hheap & _).
  cbn [snd]. rewrite Hheap. split; [by exists ext|].
  intros l o. apply lookup_app_old.
Qed.

(** X4. One call has at most one effect on its surroundings: [setItem] is
    called at most once, and on the wrapper's key; at most one diagnostic
    is emitted, with one of the two messages of the source; and a call
    that changed the storage area emitted none. *)
Theorem one_setItem_one_diagnostic {M} (platform : Platform M)
    (context : ReduxLocalStorage M) (s : loc) (a : Action) (w : World) :
  ∃ calls warns,
    setItemCalls (internalReducer platform context s a w).2
      = setItemCalls w ++ calls
    ∧ console (internalReducer platform context s a w).2 = console w ++ warns
    ∧ (length calls <= 1)%nat
    ∧ (length warns <= 1)%nat
    ∧ Forall (fun c => c.1 = target context) calls
    ∧ Forall (fun d => d.1 = "Could not marshal state to localStorage"
                       ∨ d.1 = "Could not unmarshal state from localStorage")
        warns
    ∧ (storage (internalReducer platform context s a w).2 ≠ storage w ->
       warns = []).
Proof.
  destruct (internalReducer_effects platform context s a w)
    as (next & w' & ext & calls & warns & -> & _ & Hcalls & Hcon & Hinit & Hnormal).
  cbn [snd]. exists calls, warns. split; [done|]. split; [done|].
  destruct (marked_or_not w s) as [Hm|Hm].
  - destruct (Hinit Hm) as (-> & Hst & ->). cbn [length].
    unfold initialization_warnings.
    destruct (storage w !! target context) as [text|];
      [destruct (unmarshal platform context text) as [o|e]|];
      cbn [length]; repeat split; try lia; try done;
      apply Forall_singleton; by right.
  - destruct (Hnormal Hm) as [Hc Hw].
    assert ((length warns <= 1)%nat
            ∧ Forall (fun d : string * Exception =>
                        d.1 = "Could not marshal state to localStorage"
                        ∨ d.1 = "Could not unmarshal state from localStorage")
                warns) as [Hlen Hmsg].
    { destruct Hw as [->|[e ->]]; cbn [length]; split; try lia; [done|].
      apply Forall_singleton. by left. }
    destruct Hc as [[-> Hst]|(text & -> & _ & [[Hst ->]|[Hst _]])];
      cbn [length]; repeat split; try lia; try done;
      try (apply Forall_singleton; done).
Qed.

(** X5. A transition that changes nothing leaves everything as it was: in
    the normal branch, when the child hands back the state it was given,
    the reducer returns that same reference and the heap, the storage area
    and the console are untouched, whatever the triggers are. *)
Theorem unchanged_state_leaves_world {M} (platform : Platform M)
    (context : ReduxLocalStorage M) (s : loc) (a : Action) (w : World) :
  ¬ marked w s ->
  Reduxable_reducer (reduxable context) (deref (heap w) s) a = Unchanged ->
  internalReducer platform context s a w = (Normal s, w).
Proof.
  intros Hm Hun.
  destruct (internalReducer_normal platform context s a w Hm)
    as (next & ext & Hrun & _ & ->).
  revert Hrun. unfold reduxable_reducer, bind, load, ret. rewrite Hun.
  destruct w as [h st calls con]. cbn [heap storage setItemCalls console].
  intros [= <- Hext]. rewrite <- Hext.
  by rewrite bool_decide_eq_false_2 by (intros H; by apply H).
Qed.

Lemma unchanged_state_leaves_world_witness :
  internalReducer Browser.platform rlsst 0%nat INIT loaded = (Normal 0%nat, loaded).
Proof.
  apply (unchanged_state_leaves_world Browser.platform rlsst 0%nat INIT loaded).
  - done.
  - reflexivity.
Defined.

(** X6. A write that succeeds: in the normal branch, when the child
    returns another reference, the action is a trigger, the next state
    marshals to [text] and the storage area accepts it, the reducer stores
    [text] at its key with one [setItem] call, emits no diagnostic, and
    returns the child's state. *)
Theorem persist_success {M} (platform : Platform M)
    (context : ReduxLocalStorage M) (s : loc) (a : Action) (w w1 : World)
    (nextState : loc) (text : string) :
  ¬ marked w s ->
  reduxable_reducer context s a w = (Normal nextState, w1) ->
  nextState ≠ s ->
  triggered context a ->
  marshal platform context (deref (heap w1) nextState) = Normal text ->
  storage_accepts platform (storage w) (target context) text = true ->
  internalReducer platform context s a w
  = (Normal nextState,
     mkWorld (heap w1) (<[target context := text]> (storage w))
       (setItemCalls w ++ [(target context, text)]) (console w)).
Proof.
  intros Hm Hrun Hne Ht Hmar Hacc.
  destruct (internalReducer_normal platform context s a w Hm)
    as (next & ext & Hrun' & _ & ->).
  rewrite Hrun in Hrun'. injection Hrun' as -> ->. cbn [heap] in Hmar.
  rewrite (bool_decide_eq_true_2 _ Hne), (proj2 (trigger_check context a) Ht).
  cbn [andb]. unfold marshal in Hmar.
  destruct (write (transform context) _) as [m|e]; [|done].
  destruct (JSON_stringify platform m) as [js|e]; [|done].
  injection Hmar as <-. by rewrite Hacc.
Qed.

Lemma persist_success_witness :
  storage (internalReducer Browser.platform rlswt 0%nat TEST loaded).2 !! "rlswt"
  = Some (ToString (Browser.stringify (VObject
            [ (Named "data", VString "am i writing");
              (Named "reducer", VBoolean true);
              (Named "updated", VObject []) ]))).
Proof.
  rewrite (persist_success Browser.platform rlswt 0%nat TEST loaded
             (reduxable_reducer rlswt 0%nat TEST loaded).2 1%nat
             (ToString (Browser.stringify (VObject
                [ (Named "data", VString "am i writing");
                  (Named "reducer", VBoolean true);
                  (Named "updated", VObject []) ])))).
  - reflexivity.
  - done.
  - reflexivity.
  - done.
  - right. exists ["TEST"]. split; [done | apply list_elem_of_here].
  - reflexivity.
  - reflexivity.
Defined.

(** ** Whole runs *)






(** X9. What is stored is a state the wrapper returned: over
    any run, every text handed to [setItem] is the marshalled form of one
    of the states of the run, and the key holds after the run either what
    it held before or the marshalled form of one of those states. *)
Theorem stored_texts_are_returned_states {M} (platform : Platform M)
    (context : ReduxLocalStorage M) (actions : list Action) :
  ∀ (s : loc) (w : World),
    ∃ states w' calls,
      dispatch (internalReducer platform context) s actions w = (Normal states, w')
      ∧ setItemCalls w' = setItemCalls w ++ calls
      ∧ Forall (fun c => c.1 = target context
                         ∧ ∃ o, o ∈ states
                                ∧ marshal platform context o = Normal c.2) calls
      ∧ (storage w' !! target context = storage w !! target context
         ∨ ∃ o text, o ∈ states
                     ∧ marshal platform context o = Normal text
                     ∧ storage w' !! target context = Some text).
Proof.
  induction actions as [|a rest IH]; intros s w.
  - exists [], w, []. rewrite app_nil_r. repeat split; try done. by left.
  - destruct (internalReducer_effects platform context s a w)
      as (next & w1 & ext1 & calls1 & warns1 & Hstep & _ & Hcalls1 & _
          & Hinit & Hnormal).
    destruct (IH next w1) as (states & w2 & calls2 & Hrest & Hcalls2 & Hall2 & Hst2).
    exists (deref (heap w1) next :: states), w2, (calls1 ++ calls2).
    cbn [dispatch]. unfold bind at 1. rewrite Hstep.
    unfold bind at 1, load at 1. unfold bind at 1. rewrite Hrest.
    split; [done|]. split; [by rewrite Hcalls2, Hcalls1, app_assoc|].
    assert (calls1 = [] ∧ storage w1 = storage w
            ∨ ∃ text, calls1 = [(target context, text)]
                      ∧ marshal platform context (deref (heap w1) next) = Normal text
                      ∧ (storage w1 = <[target context := text]> (storage w)
                         ∨ storage w1 = storage w)) as Hone.
    { destruct (marked_or_not w s) as [Hm|Hm].
      - left. destruct (Hinit Hm) as (? & ? & _). done.
      - destruct (Hnormal Hm) as [[?|(text & ? & ? & [[? _]|[? _]])] _];
          [by left | right; exists text; by auto | right; exists text; by auto]. }
    split.
    + apply Forall_app. split.
      * destruct Hone as [[-> _]|(text & -> & Hmar & _)]; [done|].
        apply Forall_singleton. split; [done|].
        exists (deref (heap w1) next). split; [apply list_elem_of_here | done].
      * eapply Forall_impl; [exact Hall2|].
        intros c (Hk & o & Hin & Hmar). split; [done|].
        exists o. split; [by apply list_elem_of_further | done].
    + destruct Hst2 as [Heq|(o & text & Hin & Hmar & Hst)].
      * rewrite Heq.
        destruct Hone as [[_ ->]|(text & _ & Hmar & [->| ->])];
          [by left | | by left].
        right. exists (deref (heap w1) next), text.
        split; [apply list_elem_of_here|]. split; [done|].
        by rewrite lookup_insert_eq.
      * right. exists o, text. split; [by apply list_elem_of_further | done].
Qed.

(** X10. The options change what is stored, not what is returned: in the
    normal branch two wrappers around the same child, whatever their keys,
    transforms, triggers and platforms, return the same reference and
    leave the same heap. *)
Theorem options_do_not_change_states {M1 M2} (platform1 : Platform M1)
    (platform2 : Platform M2) (context1 : ReduxLocalStorage M1)
    (context2 : ReduxLocalStorage M2) (s : loc) (a : Action) (w : World) :
  reduxable context1 = reduxable context2 ->
  ¬ marked w s ->
  (internalReducer platform1 context1 s a w).1
  = (internalReducer platform2 context2 s a w).1
  ∧ heap (internalReducer platform1 context1 s a w).2
    = heap (internalReducer platform2 context2 s a w).2.
Proof.
  intros Hchild Hm.
  destruct (internalReducer_normal platform1 context1 s a w Hm)
    as (next1 & ext1 & Hrun1 & _ & ->).
  destruct (internalReducer_normal platform2 context2 s a w Hm)
    as (next2 & ext2 & Hrun2 & _ & ->).
  assert (reduxable_reducer context1 s a w = reduxable_reducer context2 s a w)
    as Heq by (unfold reduxable_reducer; by rewrite Hchild).
  rewrite Heq, Hrun2 in Hrun1. injection Hrun1 as Hn Hh.
  apply app_inv_head in Hh. subst next2 ext2.
  cbn [fst snd]. split; [done|]. by repeat case_match.
Qed.

Lemma options_do_not_change_states_witness :
  (internalReducer Browser.platform rlswt 0%nat TEST loaded).1
  = (internalReducer StringBrowser.platform writeTransformer 0%nat TEST loaded).1.
Proof.
  apply (options_do_not_change_states Browser.platform StringBrowser.platform
           rlswt writeTransformer 0%nat TEST loaded).
  - reflexivity.
  - done.
Defined.

(** X11. The default configuration: a wrapper built without options, or
    with an options object that sets neither field, persists after every
    call that changed the state, whatever the type of the action, and
    stores the serialization of the state itself. *)
Theorem default_options_persist_every_change {M} (as_state : M -> object)
    (as_stored : object -> M) (platform : Platform M) (child : Reduxable)
    (key : string) (options : option (ReduxLocalStorageOptions M))
    (s : loc) (a : Action) (w w1 : World) (nextState : loc)
    (js : option string) :
  options = None ∨ options = Some (mkOptions None None) ->
  ¬ marked w s ->
  reduxable_reducer (constructor as_state as_stored child key options) s a w
    = (Normal nextState, w1) ->
  nextState ≠ s ->
  JSON_stringify platform (as_stored (deref (heap w1) nextState)) = Normal js ->
  storage_accepts platform (storage w) key (ToString js) = true ->
  internalReducer platform (constructor as_state as_stored child key options) s a w
  = (Normal nextState,
     mkWorld (heap w1) (<[key := ToString js]> (storage w))
       (setItemCalls w ++ [(key, ToString js)]) (console w)).
Proof.
  intros Hopt Hm Hrun Hne Hj Hacc.
  destruct (internalReducer_normal platform
              (constructor as_state as_stored child key options) s a w Hm)
    as (next & ext & Hrun' & _ & ->).
  rewrite Hrun in Hrun'. injection Hrun' as -> ->. cbn [heap] in Hj.
  rewrite (bool_decide_eq_true_2 _ Hne).
  destruct Hopt as [-> | ->]; cbn [constructor triggers transform target write
    options_transform options_triggers andb]; by rewrite Hj, Hacc.
Qed.

Lemma default_options_persist_every_change_witness :
  storage (internalReducer Browser.platform
             (constructor id id Test.new "rlsst" (Some (mkOptions None None)))
             0%nat TEST loaded).2 !! "rlsst"
  = Some (ToString (Browser.stringify (VObject
            [ (Named "data", VString "am i writing");
              (Named "reducer", VBoolean true);
              (Named "updated", VObject []) ]))).
Proof.
  rewrite (default_options_persist_every_change id id Browser.platform Test.new
             "rlsst" (Some (mkOptions None None)) 0%nat TEST loaded
             (reduxable_reducer rlsst 0%nat TEST loaded).2 1%nat
             (Browser.stringify (VObject
                [ (Named "data", VString "am i writing");
                  (Named "reducer", VBoolean true);
                  (Named "updated", VObject []) ]))).
  - reflexivity.
  - by right.
  - done.
  - reflexivity.
  - done.
  - reflexivity.
  - reflexivity.
Defined.

(** X12. The [defaultState] getter spreads the child's default state: on
    the object it returns the marker reads [true], every other enumerable
    own property is what it is on the child's default state, and nothing
    else of the child's default state is there (the prototype link and the
    [length] of an array are not copied); two reads of the getter give two
    references to equal objects, and the getter touches neither the
    storage area nor the console. *)
Theorem defaultState_spreads_child_state {M}
    (context : ReduxLocalStorage M) (w : World) :
  ∃ c1 c2 w1 w2,
    defaultState context w = (Normal c1, w1)
    ∧ defaultState context w1 = (Normal c2, w2)
    ∧ c1 ≠ c2
    ∧ deref (heap w2) c1 = deref (heap w2) c2
    ∧ getProperty defaultStateSourceMarker (deref (heap w1) c1) = VBoolean true
    ∧ (∀ k, enumerable k = true -> k ≠ defaultStateSourceMarker ->
            getProperty k (deref (heap w1) c1)
            = getProperty k (Reduxable_defaultState (reduxable context))
            ∧ hasOwnProperty k (deref (heap w1) c1)
              = hasOwnProperty k (Reduxable_defaultState (reduxable context)))
    ∧ (∀ k, enumerable k = false ->
            hasOwnProperty k (deref (heap w1) c1) = false)
    ∧ plain (deref (heap w1) c1)
    ∧ storage w2 = storage w
    ∧ setItemCalls w2 = setItemCalls w
    ∧ console w2 = console w.
Proof.
  eexists _, _, _, _. rewrite !defaultState_run.
  split; [reflexivity|]. split; [reflexivity|]. cbn [heap storage setItemCalls console].
  split; [rewrite length_app; cbn [length]; lia|].
  split.
  - rewrite deref_alloc_second.
    unfold deref. rewrite lookup_app_l by (rewrite length_app; cbn [length]; lia).
    rewrite lookup_app_r by lia.
    by replace (S (length (heap w)) - length (heap w))%nat with 1%nat by lia.
  - rewrite deref_alloc_second.
    split; [apply getProperty_defineProperty|].
    split.
    { intros k Hk Hne.
      rewrite getProperty_defineProperty_ne, hasOwnProperty_defineProperty_ne
        by done.
      by rewrite getProperty_spread, hasOwnProperty_spread, Hk. }
    split.
    { intros k Hk.
      rewrite hasOwnProperty_defineProperty_ne by (intros ->; done).
      by rewrite hasOwnProperty_spread, Hk. }
    split; [|done].
    rewrite <- spread_defineProperty by done. apply plain_spread.
Qed.

Lemma list_wrapper_defaultState :
  ∃ c w',
    defaultState list_wrapper Browser.empty = (Normal c, w')
    ∧ deref (heap w') c
      = [ (Named "0", VString "a"); (defaultStateSourceMarker, VBoolean true) ].
Proof. eexists _, _. split; [vm_compute; reflexivity | reflexivity]. Qed.

(** X13. Widening the triggers keeps every write: in the normal branch,
    when a wrapper with a list of triggers attempts a write, a wrapper that
    differs only by more triggers, or by none configured, does exactly the
    same. *)
Theorem wider_triggers_keep_writes {M} (platform : Platform M)
    (narrow wide : ReduxLocalStorage M) (s : loc) (a : Action) (w : World)
    (ts : list string) :
  reduxable wide = reduxable narrow ->
  target wide = target narrow ->
  transform wide = transform narrow ->
  triggers narrow = Some ts ->
  (triggers wide = None ∨ ∃ ts', triggers wide = Some ts' ∧ ts ⊆ ts') ->
  ¬ marked w s ->
  persist_attempted (target narrow) w (internalReducer platform narrow s a w).2 ->
  internalReducer platform wide s a w = internalReducer platform narrow s a w.
Proof.
  intros Hchild Hkey Htr Hts Hwide Hm Hatt.
  destruct (internalReducer_normal platform narrow s a w Hm)
    as (next & ext & Hrun & _ & Hn).
  destruct (internalReducer_normal platform wide s a w Hm)
    as (next' & ext' & Hrun' & _ & Hw).
  assert (reduxable_reducer wide s a w = reduxable_reducer narrow s a w)
    as Heq by (unfold reduxable_reducer; by rewrite Hchild).
  rewrite Heq, Hrun in Hrun'. injection Hrun' as Hnx Hh.
  apply app_inv_head in Hh. subst next' ext'.
  rewrite Hn in Hatt |- *. rewrite Hw. cbn [snd] in Hatt.
  rewrite Hkey, Htr.
  pose proof (trigger_check narrow a) as Hcn.
  pose proof (trigger_check wide a) as Hcw.
  destruct (bool_decide (next ≠ s)); cbn [andb] in *.
  - destruct (match triggers narrow with
              | Some ts0 => 0 <=? indexOf ts0 (type a) | None => true end) eqn:En.
    + assert (triggered wide a) as Htw.
      { destruct (proj1 Hcn eq_refl) as [Hnone|(ts0 & Hsome & Hin)];
          [congruence|]. rewrite Hts in Hsome. injection Hsome as <-.
        destruct Hwide as [?|(ts' & ? & Hsub)]; [by left|].
        right. exists ts'. split; [done | by apply Hsub]. }
      apply Hcw in Htw. by rewrite Htw.
    + exfalso. destruct Hatt as [[text He]|[e He]];
        cbn [setItemCalls console] in He; symmetry in He;
        by apply app_singleton_neq in He.
  - exfalso. destruct Hatt as [[text He]|[e He]];
      cbn [setItemCalls console] in He; symmetry in He;
      by apply app_singleton_neq in He.
Qed.

Lemma wider_triggers_keep_writes_witness :
  internalReducer Browser.platform
    (constructor id id Test.new "rlswt" (Some (mkOptions None (Some ["OTHER"; "TEST"]))))
    0%nat TEST loaded
  = internalReducer Browser.platform rlswt 0%nat TEST loaded.
Proof.
  apply (wider_triggers_keep_writes Browser.platform rlswt _ 0%nat TEST loaded ["TEST"]).
  - reflexivity.
  - reflexivity.
  - reflexivity.
  - reflexivity.
  - right. exists ["OTHER"; "TEST"]. split; [done|].
    intros x Hx. by apply list_elem_of_further.
  - done.
  - left. eexists. reflexivity.
Defined.

(** * The test suite's fixture and reporter *)

Lemma defineProperty_idempotent k v o :
  defineProperty k v (defineProperty k v o) = defineProperty k v o.
Proof.
  induction o as [|[k' v'] rest IH]; simpl.
  - by rewrite decide_True.
  - destruct (decide (k' = k)) as [->|Hne]; simpl.
    + by rewrite decide_True.
    + rewrite decide_False by done. by rewrite IH.
Qed.

(** The fixture's reducer, as properties: the flag is set, on a spread
    copy, when it is not; then [TEST] defines [data] on a spread copy. *)
Lemma Test_next_properties (state : object) (action : Action) :
  next_properties Test.new state action
  = let s := if truthy (getProperty (Named "reducer") state) then state
             else defineProperty (Named "reducer") (VBoolean true)
                    (spread state) in
    if decide (type action = "TEST")
    then defineProperty (Named "data") (data action) (spread s)
    else s.
Proof.
  unfold next_properties. cbn [Test.new Reduxable_reducer].
  unfold Test.internalReducer. cbn zeta.
  destruct (truthy (getProperty (Named "reducer") state));
    by destruct (decide (type action = "TEST")).
Qed.

(** X14. The fixture's reducer: the state it returns has a truthy
    [reducer] flag; on [TEST] it is a new object whose [data] is the
    action's; on any other action [data] is kept, and a state already
    flagged is handed back as it is; no other enumerable own property
    changes, and a new object is a plain one (it is made by a spread); and
    reducing twice with one action gives the properties of reducing
    once. *)
Theorem Test_reducer_behaviour (state : object) (action : Action) :
  let o' := next_properties Test.new state action in
  truthy (getProperty (Named "reducer") o') = true
  ∧ (type action = "TEST" ->
     getProperty (Named "data") o' = data action
     ∧ Test.internalReducer state action ≠ Unchanged)
  ∧ (type action ≠ "TEST" ->
     getProperty (Named "data") o' = getProperty (Named "data") state
     ∧ (truthy (getProperty (Named "reducer") state) = true ->
        Test.internalReducer state action = Unchanged))
  ∧ (∀ k, enumerable k = true -> k ≠ Named "data" -> k ≠ Named "reducer" ->
          getProperty k o' = getProperty k state)
  ∧ (Test.internalReducer state action ≠ Unchanged -> plain o')
  ∧ next_properties Test.new o' action = o'.
Proof.
  cbn zeta. rewrite !Test_next_properties. cbn zeta.
  unfold Test.internalReducer.
  pose proof (plain_spread state) as Hp.
  destruct (truthy (getProperty (Named "reducer") state)) eqn:Hflag;
    destruct (decide (type action = "TEST")) as [Ht|Ht].
  - assert (plain (defineProperty (Named "data") (data action) (spread state)))
      as Hp' by by apply plain_defineProperty.
    rewrite (getProperty_defineProperty_ne (Named "reducer") (Named "data")) by done.
    rewrite getProperty_spread, Hflag by done.
    rewrite (spread_plain _ Hp'), getProperty_defineProperty,
      defineProperty_idempotent.
    repeat split; try done.
    intros k Hk Hd _. by rewrite getProperty_defineProperty_ne, getProperty_spread.
  - rewrite Hflag. repeat split; done.
  - assert (plain (defineProperty (Named "reducer") (VBoolean true) (spread state)))
      as Hp1 by by apply plain_defineProperty.
    rewrite !(spread_plain _ Hp1).
    assert (plain (defineProperty (Named "data") (data action)
                     (defineProperty (Named "reducer") (VBoolean true)
                        (spread state)))) as Hp2.
    { rewrite <- (spread_plain _ Hp1). apply plain_defineProperty; [done|].
      by rewrite (spread_plain _ Hp1). }
    rewrite (getProperty_defineProperty_ne (Named "reducer") (Named "data")) by done.
    rewrite !getProperty_defineProperty. cbn [truthy].
    rewrite (spread_plain _ Hp2), defineProperty_idempotent.
    repeat split; try done.
    intros k Hk Hd Hr.
    by rewrite !getProperty_defineProperty_ne, getProperty_spread.
  - rewrite !getProperty_defineProperty. cbn [truthy].
    repeat split; try done.
    + by rewrite getProperty_defineProperty_ne, getProperty_spread.
    + intros k Hk Hd Hr.
      by rewrite getProperty_defineProperty_ne, getProperty_spread.
    + intros _. by apply plain_defineProperty.
Qed.

(** X15. Every action [Test.run] builds is persisted: for a wrapper around
    the fixture whose triggers are undefined or list [TEST], a call of the
    reducer on an initialized state with [run(data)] returns a new state
    whose [data] is [data] and attempts the write of that state: [setItem]
    is called once, on the wrapper's key, with the marshalled state (or the
    marshal diagnostic is emitted, when marshalling throws). *)
Theorem run_actions_are_persisted {M} (platform : Platform M)
    (context : ReduxLocalStorage M) (s : loc) (w : World) (d : value) :
  reduxable context = Test.new ->
  triggered context (Test_run d) ->
  ¬ marked w s ->
  is_Some (heap w !! s) ->
  ∃ next w',
    internalReducer platform context s (Test_run d) w = (Normal next, w')
    ∧ next ≠ s
    ∧ getProperty (Named "data") (deref (heap w') next) = d
    ∧ write_attempted platform context (deref (heap w') next) w w'.
Proof.
  intros Hchild Ht Hm Hs.
  destruct (internalReducer_normal_outcome platform context s (Test_run d) w Hm)
    as (next & w1 & w' & Hrun & Hstep & Hheap & Hnext & Hyes & _).
  assert (next = length (heap w)) as Hfresh.
  { revert Hrun. unfold reduxable_reducer, bind, load, ret, alloc.
    rewrite Hchild. cbn [Test.new Reduxable_reducer].
    unfold Test.internalReducer. cbn [Test_run type].
    rewrite decide_True by done. by intros [= <- _]. }
  assert (next ≠ s) as Hne.
  { apply lookup_lt_is_Some in Hs. lia. }
  exists next, w'. split; [done|]. split; [done|]. rewrite Hheap.
  split; [|by apply Hyes].
  rewrite Hnext, Hchild, Test_next_properties. cbn [Test_run type data].
  rewrite decide_True by done. apply getProperty_defineProperty.
Qed.

Lemma run_actions_are_persisted_witness :
  ∃ w',
    internalReducer Browser.platform rlswt 0%nat
      (Test_run (VString "running this saga")) loaded = (Normal 1%nat, w')
    ∧ storage w' !! "rlswt"
      = Some (ToString (Browser.stringify (VObject
                [ (Named "data", VString "running this saga");
                  (Named "reducer", VBoolean true);
                  (Named "updated", VObject []) ]))).
Proof.
  destruct (run_actions_are_persisted Browser.platform rlswt 0%nat loaded
              (VString "running this saga"))
    as (next & w' & Hrun & _ & _ & Hatt).
  - reflexivity.
  - right. exists ["TEST"]. split; [done | apply list_elem_of_here].
  - done.
  - by eexists.
  - exists w'.
    assert (next = 1%nat) as ->.
    { vm_compute in Hrun. by injection Hrun as <- _. }
    split; [done|].
    assert (deref (heap w') 1%nat
            = [ (Named "data", VString "running this saga");
                (Named "reducer", VBoolean true);
                (Named "updated", VObject []) ]) as Hstate.
    { vm_compute in Hrun. by injection Hrun as <-. }
    rewrite Hstate in Hatt. destruct Hatt as (_ & Hst & _).
    rewrite Hst. reflexivity.
Defined.

Lemma alter_middle {A} (f : A -> A) (l post : list A) (x : A) :
  alter f (length l) (l ++ x :: post) = l ++ f x :: post.
Proof.
  induction l as [|y l IH]; simpl; [done|].
  by rewrite <- IH.
Qed.

(** While the six methods are the reporters of one report array, every
    call lands on that array, in order, and nothing is printed. *)
Lemma Reporter_calls_captured {A} (msgs : list (Reporter.ConsoleMessage A)) :
  ∀ (c : Reporter.Console) (ars post : list (list (Reporter.ConsoleMessage A)))
    (acc term : list (Reporter.ConsoleMessage A)),
    (∀ k, Reporter.method c k = Reporter.reporter (length ars) k) ->
    Reporter.calls msgs (Reporter.mkHarness c (ars ++ acc :: post) term)
    = Reporter.mkHarness c (ars ++ (acc ++ msgs) :: post) term.
Proof.
  induction msgs as [|[k args] rest IH]; intros c ars post acc term Hc.
  - by rewrite app_nil_r.
  - unfold Reporter.calls in *. cbn [foldl].
    unfold Reporter.call at 2. cbn [Reporter.methods fst snd].
    rewrite Hc. cbn [Reporter.invoke Reporter.methods Reporter.arrays Reporter.terminal].
    rewrite alter_middle. cbn beta.
    rewrite (IH c ars post (acc ++ [(k, args)]) term Hc).
    by rewrite <- app_assoc.
Qed.

(** X16. Capture and restore: between [wrapConsole] and the call of the
    function it returned, every console call of the six kinds is recorded,
    in order, with its kind and arguments, and none is printed; the
    function returns that record and puts the six methods back; the other
    report arrays are untouched. *)
Theorem wrapConsole_captures {A} (h : Reporter.Harness A)
    (msgs : list (Reporter.ConsoleMessage A)) :
  let wrapped := Reporter.wrapConsole h in
  let restored := Reporter.restore wrapped.1 (Reporter.calls msgs wrapped.2) in
  restored.1 = msgs
  ∧ Reporter.methods restored.2 = Reporter.methods h
  ∧ Reporter.terminal restored.2 = Reporter.terminal h
  ∧ ∀ i rep, Reporter.arrays h !! i = Some rep ->
             Reporter.arrays restored.2 !! i = Some rep.
Proof.
  destruct h as [[e g gc ge l w] ars term].
  cbn zeta. unfold Reporter.wrapConsole, Reporter.restore.
  reporter_simpl.
  rewrite (Reporter_calls_captured msgs _ ars []) by (by intros []).
  reporter_simpl.
  rewrite lookup_app_r, Nat.sub_diag by lia.
  repeat split; try done.
  intros i rep Hi. by apply lookup_app_l_Some.
Qed.

(** X17. Reporters nest: a second [wrapConsole] inside a first captures
    the calls made while it is installed; restoring it hands the console
    back to the first, which goes on capturing; restoring the first puts
    the methods found at the start back, and nothing was printed. *)
Theorem wrapConsole_nests {A} (h : Reporter.Harness A)
    (m1 m2 m3 : list (Reporter.ConsoleMessage A)) :
  let outer := Reporter.wrapConsole h in
  let inner := Reporter.wrapConsole (Reporter.calls m1 outer.2) in
  let inner_restored := Reporter.restore inner.1 (Reporter.calls m2 inner.2) in
  let outer_restored :=
    Reporter.restore outer.1 (Reporter.calls m3 inner_restored.2) in
  inner_restored.1 = m2
  ∧ outer_restored.1 = m1 ++ m3
  ∧ Reporter.methods outer_restored.2 = Reporter.methods h
  ∧ Reporter.terminal outer_restored.2 = Reporter.terminal h.
Proof.
  destruct h as [[e g gc ge l w] ars term].
  cbn zeta. unfold Reporter.wrapConsole, Reporter.restore.
  reporter_simpl.
  rewrite (Reporter_calls_captured m1 _ ars []) by (by intros []).
  reporter_simpl.
  rewrite (Reporter_calls_captured m2 _ (ars ++ [[] ++ m1]) []) by (by intros []).
  reporter_simpl.
  rewrite <- (app_assoc ars [m1] [m2]). cbn [app].
  rewrite (Reporter_calls_captured m3 _ ars [m2]) by (by intros []).
  reporter_simpl.
  split.
  - replace (ars ++ [m1; m2]) with ((ars ++ [m1]) ++ [m2])
      by (by rewrite <- app_assoc).
    by rewrite lookup_app_r, Nat.sub_diag by lia.
  - split; [|done]. by rewrite lookup_app_r, Nat.sub_diag by lia.
Qed.

(** X18. Restoring out of order leaves the console wrapped: when the
    function of an outer [wrapConsole] is called before that of an inner
    one, the inner one then reinstalls the outer reporters; the calls that
    follow are not printed, and land on the outer report. *)
Theorem wrapConsole_restored_out_of_order {A} (h : Reporter.Harness A)
    (msgs : list (Reporter.ConsoleMessage A)) :
  let outer := Reporter.wrapConsole h in
  let inner := Reporter.wrapConsole outer.2 in
  let after :=
    (Reporter.restore inner.1 (Reporter.restore outer.1 inner.2).2).2 in
  (∀ k, Reporter.method (Reporter.methods after) k
        = Reporter.reporter (Reporter.report outer.1) k)
  ∧ Reporter.terminal (Reporter.calls msgs after) = Reporter.terminal h
  ∧ (Reporter.restore outer.1 (Reporter.calls msgs after)).1 = msgs.
Proof.
  destruct h as [[e g gc ge l w] ars term].
  cbn zeta. unfold Reporter.wrapConsole, Reporter.restore.
  reporter_simpl.
  split; [by intros []|].
  rewrite <- (app_assoc ars [[]] [[]]). cbn [app].
  rewrite (Reporter_calls_captured msgs _ ars [[]]) by (by intros []).
  reporter_simpl.
  split; [done|].
  by rewrite lookup_app_r, Nat.sub_diag by lia.
Qed.
